(** * app.py: the plastic reuse / recycle / resale prediction service

    A shallow embedding of [app.py] and the proofs of its specification.
    The first part models the pieces of the Python interpreter the program
    leans on (exceptions, floats, truthiness, [float()], [round()],
    [str.lower], [str.strip]); the second part is the program itself. *)

From Stdlib Require Import ZArith List String Ascii Bool Lia DecimalString DecimalN.
From Stdlib Require Import Floats.SpecFloat.
From Stdlib Require DecimalNat FinFun.
Import ListNotations.
Local Open Scope string_scope.
Local Open Scope Z_scope.

(** ** Exceptions and fallible computations *)

(** The exceptions the program can meet.  [str(e)] is left to the
    interpreter: the program only forwards it. *)
Inductive exn : Type :=
| AttributeError (type_name attr : string)
| ValueError_float (text : string)
| ValueError_truth
| TypeError_float (type_name : string)
| OverflowError_int
| FileNotFoundError (path : string)
| BadRequest
| ExternalError (msg : string).

Inductive result (A : Type) : Type :=
| Ok (a : A)
| Raise (e : exn).
Arguments Ok {A} a.
Arguments Raise {A} e.

Definition bind {A B : Type} (r : result A) (k : A -> result B) : result B :=
  match r with
  | Ok a => k a
  | Raise e => Raise e
  end.

Notation "x <- r ;; k" := (bind r (fun x => k))
  (at level 100, r at next level, right associativity).

Definition is_ok {A : Type} (r : result A) : bool :=
  match r with Ok _ => true | Raise _ => false end.

(** ** Python floats: IEEE 754 binary64 *)

Module PyFloat.

Definition prec : Z := 53.
Definition emax : Z := 1024.

Definition float : Type := spec_float.

Definition mul : float -> float -> float := SFmul prec emax.
Definition sub : float -> float -> float := SFsub prec emax.
Definition ltb : float -> float -> bool := SFltb.
Definition leb : float -> float -> bool := SFleb.

Definition pos_zero : float := S754_zero false.

(** The double nearest to the integer [n] (ties to even); an infinity when
    [n] is out of range. *)
Definition nearest_of_Z (n : Z) : float := binary_normalize prec emax n 0 false.

(** The double nearest to the fraction [sign n / d], for [0 <= n] and
    [0 < d]: the quotient is taken on the integers and rounded once. *)
Definition nearest_of_ratio (sign : bool) (n d : Z) : float :=
  match n, d with
  | Zpos pn, Zpos pd =>
      SFdiv prec emax (S754_finite sign pn 0) (S754_finite false pd 0)
  | _, _ => S754_zero sign
  end.

(** [float(n)] for a Python [int]: [OverflowError] when the nearest double
    would be an infinity. *)
Definition of_int (n : Z) : result float :=
  match nearest_of_Z n with
  | S754_infinity _ => Raise OverflowError_int
  | f => Ok f
  end.

(** A literal [m * 10^k] as the parser of the interpreter reads it: the
    nearest double. *)
Definition of_decimal (sign : bool) (m : Z) (k : Z) : float :=
  match k with
  | Zneg p => nearest_of_ratio sign m (Z.pow_pos 10 p)
  | _ =>
      match m * 10 ^ k with
      | Zpos q => binary_round prec emax sign q 0
      | _ => S754_zero sign
      end
  end.

(** The literals of the program. *)
Definition lit_0_2 : float := Eval vm_compute in of_decimal false 2 (-1).
Definition lit_0_1 : float := Eval vm_compute in of_decimal false 1 (-1).
Definition lit_12_0 : float := Eval vm_compute in of_decimal false 120 (-1).
Definition lit_100 : float := Eval vm_compute in nearest_of_Z 100.

(** Rounding of the fraction [n / d] to an integer, ties to even
    ([0 <= n], [0 < d]). *)
Definition round_half_even (n d : Z) : Z :=
  let q := n / d in
  let r := n mod d in
  match 2 * r ?= d with
  | Lt => q
  | Gt => q + 1
  | Eq => if Z.even q then q else q + 1
  end.

(** The number of hundredths nearest to the exact value [m * 2^e]. *)
Definition hundredths (m : positive) (e : Z) : Z :=
  match e with
  | Zneg p => round_half_even (Zpos m * 100) (Z.pow_pos 2 p)
  | _ => Zpos m * 100 * 2 ^ e
  end.

(** [round(x, 2)] on a float: infinities and NaN round to themselves; a
    finite [x] is written out with two correctly rounded decimals and that
    decimal is read back as the nearest double. *)
Definition round2 (x : float) : float :=
  match x with
  | S754_finite s m e => nearest_of_ratio s (hundredths m e) 100
  | _ => x
  end.

End PyFloat.

(** ** The Unicode data of the interpreter

    Python texts are sequences of code points.  What [str.strip],
    [str.lower], [float()] and [int()] do with a code point is read from the
    character database of the interpreter; the tables below are those of
    Unicode 14.0.0, the version built into CPython 3.11. *)

Module Unicode.

Local Open Scope N_scope.

(** The code points for which [str.isspace] holds. *)
Definition whitespace : list N :=
  [ 9; 10; 11; 12; 13; 28; 29; 30; 31; 32; 133; 160; 5760; 8192; 8193; 8194; 8195; 8196;
    8197; 8198; 8199; 8200; 8201; 8202; 8232; 8233; 8239; 8287; 12288 ].

(** The digit zero of every run of ten decimal digits. *)
Definition decimal_zeros : list N :=
  [ 48; 1632; 1776; 1984; 2406; 2534; 2662; 2790; 2918; 3046; 3174; 3302; 3430; 3558; 3664;
    3792; 3872; 4160; 4240; 6112; 6160; 6470; 6608; 6784; 6800; 6992; 7088; 7232; 7248;
    42528; 43216; 43264; 43472; 43504; 43600; 44016; 65296; 66720; 68912; 69734; 69872;
    69942; 70096; 70384; 70736; 70864; 71248; 71360; 71472; 71904; 72016; 72784; 73040;
    73120; 92768; 92864; 93008; 120782; 120792; 120802; 120812; 120822; 123200; 123632;
    125264; 130032 ].

(** Lower-case mappings: the code points [lo..hi] go to [lo'..], in order. *)
Definition lowercase : list (N * N * N) :=
  [ (65, 90, 97); (192, 214, 224); (216, 222, 248); (256, 256, 257); (258, 258, 259);
    (260, 260, 261); (262, 262, 263); (264, 264, 265); (266, 266, 267); (268, 268, 269);
    (270, 270, 271); (272, 272, 273); (274, 274, 275); (276, 276, 277); (278, 278, 279);
    (280, 280, 281); (282, 282, 283); (284, 284, 285); (286, 286, 287); (288, 288, 289);
    (290, 290, 291); (292, 292, 293); (294, 294, 295); (296, 296, 297); (298, 298, 299);
    (300, 300, 301); (302, 302, 303); (306, 306, 307); (308, 308, 309); (310, 310, 311);
    (313, 313, 314); (315, 315, 316); (317, 317, 318); (319, 319, 320); (321, 321, 322);
    (323, 323, 324); (325, 325, 326); (327, 327, 328); (330, 330, 331); (332, 332, 333);
    (334, 334, 335); (336, 336, 337); (338, 338, 339); (340, 340, 341); (342, 342, 343);
    (344, 344, 345); (346, 346, 347); (348, 348, 349); (350, 350, 351); (352, 352, 353);
    (354, 354, 355); (356, 356, 357); (358, 358, 359); (360, 360, 361); (362, 362, 363);
    (364, 364, 365); (366, 366, 367); (368, 368, 369); (370, 370, 371); (372, 372, 373);
    (374, 374, 375); (376, 376, 255); (377, 377, 378); (379, 379, 380); (381, 381, 382);
    (385, 385, 595); (386, 386, 387); (388, 388, 389); (390, 390, 596); (391, 391, 392);
    (393, 394, 598); (395, 395, 396); (398, 398, 477); (399, 399, 601); (400, 400, 603);
    (401, 401, 402); (403, 403, 608); (404, 404, 611); (406, 406, 617); (407, 407, 616);
    (408, 408, 409); (412, 412, 623); (413, 413, 626); (415, 415, 629); (416, 416, 417);
    (418, 418, 419); (420, 420, 421); (422, 422, 640); (423, 423, 424); (425, 425, 643);
    (428, 428, 429); (430, 430, 648); (431, 431, 432); (433, 434, 650); (435, 435, 436);
    (437, 437, 438); (439, 439, 658); (440, 440, 441); (444, 444, 445); (452, 452, 454);
    (453, 453, 454); (455, 455, 457); (456, 456, 457); (458, 458, 460); (459, 459, 460);
    (461, 461, 462); (463, 463, 464); (465, 465, 466); (467, 467, 468); (469, 469, 470);
    (471, 471, 472); (473, 473, 474); (475, 475, 476); (478, 478, 479); (480, 480, 481);
    (482, 482, 483); (484, 484, 485); (486, 486, 487); (488, 488, 489); (490, 490, 491);
    (492, 492, 493); (494, 494, 495); (497, 497, 499); (498, 498, 499); (500, 500, 501);
    (502, 502, 405); (503, 503, 447); (504, 504, 505); (506, 506, 507); (508, 508, 509);
    (510, 510, 511); (512, 512, 513); (514, 514, 515); (516, 516, 517); (518, 518, 519);
    (520, 520, 521); (522, 522, 523); (524, 524, 525); (526, 526, 527); (528, 528, 529);
    (530, 530, 531); (532, 532, 533); (534, 534, 535); (536, 536, 537); (538, 538, 539);
    (540, 540, 541); (542, 542, 543); (544, 544, 414); (546, 546, 547); (548, 548, 549);
    (550, 550, 551); (552, 552, 553); (554, 554, 555); (556, 556, 557); (558, 558, 559);
    (560, 560, 561); (562, 562, 563); (570, 570, 11365); (571, 571, 572); (573, 573, 410);
    (574, 574, 11366); (577, 577, 578); (579, 579, 384); (580, 580, 649); (581, 581, 652);
    (582, 582, 583); (584, 584, 585); (586, 586, 587); (588, 588, 589); (590, 590, 591);
    (880, 880, 881); (882, 882, 883); (886, 886, 887); (895, 895, 1011); (902, 902, 940);
    (904, 906, 941); (908, 908, 972); (910, 911, 973); (913, 929, 945); (931, 939, 963);
    (975, 975, 983); (984, 984, 985); (986, 986, 987); (988, 988, 989); (990, 990, 991);
    (992, 992, 993); (994, 994, 995); (996, 996, 997); (998, 998, 999); (1000, 1000, 1001);
    (1002, 1002, 1003); (1004, 1004, 1005); (1006, 1006, 1007); (1012, 1012, 952);
    (1015, 1015, 1016); (1017, 1017, 1010); (1018, 1018, 1019); (1021, 1023, 891);
    (1024, 1039, 1104); (1040, 1071, 1072); (1120, 1120, 1121); (1122, 1122, 1123);
    (1124, 1124, 1125); (1126, 1126, 1127); (1128, 1128, 1129); (1130, 1130, 1131);
    (1132, 1132, 1133); (1134, 1134, 1135); (1136, 1136, 1137); (1138, 1138, 1139);
    (1140, 1140, 1141); (1142, 1142, 1143); (1144, 1144, 1145); (1146, 1146, 1147);
    (1148, 1148, 1149); (1150, 1150, 1151); (1152, 1152, 1153); (1162, 1162, 1163);
    (1164, 1164, 1165); (1166, 1166, 1167); (1168, 1168, 1169); (1170, 1170, 1171);
    (1172, 1172, 1173); (1174, 1174, 1175); (1176, 1176, 1177); (1178, 1178, 1179);
    (1180, 1180, 1181); (1182, 1182, 1183); (1184, 1184, 1185); (1186, 1186, 1187);
    (1188, 1188, 1189); (1190, 1190, 1191); (1192, 1192, 1193); (1194, 1194, 1195);
    (1196, 1196, 1197); (1198, 1198, 1199); (1200, 1200, 1201); (1202, 1202, 1203);
    (1204, 1204, 1205); (1206, 1206, 1207); (1208, 1208, 1209); (1210, 1210, 1211);
    (1212, 1212, 1213); (1214, 1214, 1215); (1216, 1216, 1231); (1217, 1217, 1218);
    (1219, 1219, 1220); (1221, 1221, 1222); (1223, 1223, 1224); (1225, 1225, 1226);
    (1227, 1227, 1228); (1229, 1229, 1230); (1232, 1232, 1233); (1234, 1234, 1235);
    (1236, 1236, 1237); (1238, 1238, 1239); (1240, 1240, 1241); (1242, 1242, 1243);
    (1244, 1244, 1245); (1246, 1246, 1247); (1248, 1248, 1249); (1250, 1250, 1251);
    (1252, 1252, 1253); (1254, 1254, 1255); (1256, 1256, 1257); (1258, 1258, 1259);
    (1260, 1260, 1261); (1262, 1262, 1263); (1264, 1264, 1265); (1266, 1266, 1267);
    (1268, 1268, 1269); (1270, 1270, 1271); (1272, 1272, 1273); (1274, 1274, 1275);
    (1276, 1276, 1277); (1278, 1278, 1279); (1280, 1280, 1281); (1282, 1282, 1283);
    (1284, 1284, 1285); (1286, 1286, 1287); (1288, 1288, 1289); (1290, 1290, 1291);
    (1292, 1292, 1293); (1294, 1294, 1295); (1296, 1296, 1297); (1298, 1298, 1299);
    (1300, 1300, 1301); (1302, 1302, 1303); (1304, 1304, 1305); (1306, 1306, 1307);
    (1308, 1308, 1309); (1310, 1310, 1311); (1312, 1312, 1313); (1314, 1314, 1315);
    (1316, 1316, 1317); (1318, 1318, 1319); (1320, 1320, 1321); (1322, 1322, 1323);
    (1324, 1324, 1325); (1326, 1326, 1327); (1329, 1366, 1377); (4256, 4293, 11520);
    (4295, 4295, 11559); (4301, 4301, 11565); (5024, 5103, 43888); (5104, 5109, 5112);
    (7312, 7354, 4304); (7357, 7359, 4349); (7680, 7680, 7681); (7682, 7682, 7683);
    (7684, 7684, 7685); (7686, 7686, 7687); (7688, 7688, 7689); (7690, 7690, 7691);
    (7692, 7692, 7693); (7694, 7694, 7695); (7696, 7696, 7697); (7698, 7698, 7699);
    (7700, 7700, 7701); (7702, 7702, 7703); (7704, 7704, 7705); (7706, 7706, 7707);
    (7708, 7708, 7709); (7710, 7710, 7711); (7712, 7712, 7713); (7714, 7714, 7715);
    (7716, 7716, 7717); (7718, 7718, 7719); (7720, 7720, 7721); (7722, 7722, 7723);
    (7724, 7724, 7725); (7726, 7726, 7727); (7728, 7728, 7729); (7730, 7730, 7731);
    (7732, 7732, 7733); (7734, 7734, 7735); (7736, 7736, 7737); (7738, 7738, 7739);
    (7740, 7740, 7741); (7742, 7742, 7743); (7744, 7744, 7745); (7746, 7746, 7747);
    (7748, 7748, 7749); (7750, 7750, 7751); (7752, 7752, 7753); (7754, 7754, 7755);
    (7756, 7756, 7757); (7758, 7758, 7759); (7760, 7760, 7761); (7762, 7762, 7763);
    (7764, 7764, 7765); (7766, 7766, 7767); (7768, 7768, 7769); (7770, 7770, 7771);
    (7772, 7772, 7773); (7774, 7774, 7775); (7776, 7776, 7777); (7778, 7778, 7779);
    (7780, 7780, 7781); (7782, 7782, 7783); (7784, 7784, 7785); (7786, 7786, 7787);
    (7788, 7788, 7789); (7790, 7790, 7791); (7792, 7792, 7793); (7794, 7794, 7795);
    (7796, 7796, 7797); (7798, 7798, 7799); (7800, 7800, 7801); (7802, 7802, 7803);
    (7804, 7804, 7805); (7806, 7806, 7807); (7808, 7808, 7809); (7810, 7810, 7811);
    (7812, 7812, 7813); (7814, 7814, 7815); (7816, 7816, 7817); (7818, 7818, 7819);
    (7820, 7820, 7821); (7822, 7822, 7823); (7824, 7824, 7825); (7826, 7826, 7827);
    (7828, 7828, 7829); (7838, 7838, 223); (7840, 7840, 7841); (7842, 7842, 7843);
    (7844, 7844, 7845); (7846, 7846, 7847); (7848, 7848, 7849); (7850, 7850, 7851);
    (7852, 7852, 7853); (7854, 7854, 7855); (7856, 7856, 7857); (7858, 7858, 7859);
    (7860, 7860, 7861); (7862, 7862, 7863); (7864, 7864, 7865); (7866, 7866, 7867);
    (7868, 7868, 7869); (7870, 7870, 7871); (7872, 7872, 7873); (7874, 7874, 7875);
    (7876, 7876, 7877); (7878, 7878, 7879); (7880, 7880, 7881); (7882, 7882, 7883);
    (7884, 7884, 7885); (7886, 7886, 7887); (7888, 7888, 7889); (7890, 7890, 7891);
    (7892, 7892, 7893); (7894, 7894, 7895); (7896, 7896, 7897); (7898, 7898, 7899);
    (7900, 7900, 7901); (7902, 7902, 7903); (7904, 7904, 7905); (7906, 7906, 7907);
    (7908, 7908, 7909); (7910, 7910, 7911); (7912, 7912, 7913); (7914, 7914, 7915);
    (7916, 7916, 7917); (7918, 7918, 7919); (7920, 7920, 7921); (7922, 7922, 7923);
    (7924, 7924, 7925); (7926, 7926, 7927); (7928, 7928, 7929); (7930, 7930, 7931);
    (7932, 7932, 7933); (7934, 7934, 7935); (7944, 7951, 7936); (7960, 7965, 7952);
    (7976, 7983, 7968); (7992, 7999, 7984); (8008, 8013, 8000); (8025, 8025, 8017);
    (8027, 8027, 8019); (8029, 8029, 8021); (8031, 8031, 8023); (8040, 8047, 8032);
    (8072, 8079, 8064); (8088, 8095, 8080); (8104, 8111, 8096); (8120, 8121, 8112);
    (8122, 8123, 8048); (8124, 8124, 8115); (8136, 8139, 8050); (8140, 8140, 8131);
    (8152, 8153, 8144); (8154, 8155, 8054); (8168, 8169, 8160); (8170, 8171, 8058);
    (8172, 8172, 8165); (8184, 8185, 8056); (8186, 8187, 8060); (8188, 8188, 8179);
    (8486, 8486, 969); (8490, 8490, 107); (8491, 8491, 229); (8498, 8498, 8526);
    (8544, 8559, 8560); (8579, 8579, 8580); (9398, 9423, 9424); (11264, 11311, 11312);
    (11360, 11360, 11361); (11362, 11362, 619); (11363, 11363, 7549); (11364, 11364, 637);
    (11367, 11367, 11368); (11369, 11369, 11370); (11371, 11371, 11372);
    (11373, 11373, 593); (11374, 11374, 625); (11375, 11375, 592); (11376, 11376, 594);
    (11378, 11378, 11379); (11381, 11381, 11382); (11390, 11391, 575);
    (11392, 11392, 11393); (11394, 11394, 11395); (11396, 11396, 11397);
    (11398, 11398, 11399); (11400, 11400, 11401); (11402, 11402, 11403);
    (11404, 11404, 11405); (11406, 11406, 11407); (11408, 11408, 11409);
    (11410, 11410, 11411); (11412, 11412, 11413); (11414, 11414, 11415);
    (11416, 11416, 11417); (11418, 11418, 11419); (11420, 11420, 11421);
    (11422, 11422, 11423); (11424, 11424, 11425); (11426, 11426, 11427);
    (11428, 11428, 11429); (11430, 11430, 11431); (11432, 11432, 11433);
    (11434, 11434, 11435); (11436, 11436, 11437); (11438, 11438, 11439);
    (11440, 11440, 11441); (11442, 11442, 11443); (11444, 11444, 11445);
    (11446, 11446, 11447); (11448, 11448, 11449); (11450, 11450, 11451);
    (11452, 11452, 11453); (11454, 11454, 11455); (11456, 11456, 11457);
    (11458, 11458, 11459); (11460, 11460, 11461); (11462, 11462, 11463);
    (11464, 11464, 11465); (11466, 11466, 11467); (11468, 11468, 11469);
    (11470, 11470, 11471); (11472, 11472, 11473); (11474, 11474, 11475);
    (11476, 11476, 11477); (11478, 11478, 11479); (11480, 11480, 11481);
    (11482, 11482, 11483); (11484, 11484, 11485); (11486, 11486, 11487);
    (11488, 11488, 11489); (11490, 11490, 11491); (11499, 11499, 11500);
    (11501, 11501, 11502); (11506, 11506, 11507); (42560, 42560, 42561);
    (42562, 42562, 42563); (42564, 42564, 42565); (42566, 42566, 42567);
    (42568, 42568, 42569); (42570, 42570, 42571); (42572, 42572, 42573);
    (42574, 42574, 42575); (42576, 42576, 42577); (42578, 42578, 42579);
    (42580, 42580, 42581); (42582, 42582, 42583); (42584, 42584, 42585);
    (42586, 42586, 42587); (42588, 42588, 42589); (42590, 42590, 42591);
    (42592, 42592, 42593); (42594, 42594, 42595); (42596, 42596, 42597);
    (42598, 42598, 42599); (42600, 42600, 42601); (42602, 42602, 42603);
    (42604, 42604, 42605); (42624, 42624, 42625); (42626, 42626, 42627);
    (42628, 42628, 42629); (42630, 42630, 42631); (42632, 42632, 42633);
    (42634, 42634, 42635); (42636, 42636, 42637); (42638, 42638, 42639);
    (42640, 42640, 42641); (42642, 42642, 42643); (42644, 42644, 42645);
    (42646, 42646, 42647); (42648, 42648, 42649); (42650, 42650, 42651);
    (42786, 42786, 42787); (42788, 42788, 42789); (42790, 42790, 42791);
    (42792, 42792, 42793); (42794, 42794, 42795); (42796, 42796, 42797);
    (42798, 42798, 42799); (42802, 42802, 42803); (42804, 42804, 42805);
    (42806, 42806, 42807); (42808, 42808, 42809); (42810, 42810, 42811);
    (42812, 42812, 42813); (42814, 42814, 42815); (42816, 42816, 42817);
    (42818, 42818, 42819); (42820, 42820, 42821); (42822, 42822, 42823);
    (42824, 42824, 42825); (42826, 42826, 42827); (42828, 42828, 42829);
    (42830, 42830, 42831); (42832, 42832, 42833); (42834, 42834, 42835);
    (42836, 42836, 42837); (42838, 42838, 42839); (42840, 42840, 42841);
    (42842, 42842, 42843); (42844, 42844, 42845); (42846, 42846, 42847);
    (42848, 42848, 42849); (42850, 42850, 42851); (42852, 42852, 42853);
    (42854, 42854, 42855); (42856, 42856, 42857); (42858, 42858, 42859);
    (42860, 42860, 42861); (42862, 42862, 42863); (42873, 42873, 42874);
    (42875, 42875, 42876); (42877, 42877, 7545); (42878, 42878, 42879);
    (42880, 42880, 42881); (42882, 42882, 42883); (42884, 42884, 42885);
    (42886, 42886, 42887); (42891, 42891, 42892); (42893, 42893, 613);
    (42896, 42896, 42897); (42898, 42898, 42899); (42902, 42902, 42903);
    (42904, 42904, 42905); (42906, 42906, 42907); (42908, 42908, 42909);
    (42910, 42910, 42911); (42912, 42912, 42913); (42914, 42914, 42915);
    (42916, 42916, 42917); (42918, 42918, 42919); (42920, 42920, 42921);
    (42922, 42922, 614); (42923, 42923, 604); (42924, 42924, 609); (42925, 42925, 620);
    (42926, 42926, 618); (42928, 42928, 670); (42929, 42929, 647); (42930, 42930, 669);
    (42931, 42931, 43859); (42932, 42932, 42933); (42934, 42934, 42935);
    (42936, 42936, 42937); (42938, 42938, 42939); (42940, 42940, 42941);
    (42942, 42942, 42943); (42944, 42944, 42945); (42946, 42946, 42947);
    (42948, 42948, 42900); (42949, 42949, 642); (42950, 42950, 7566); (42951, 42951, 42952);
    (42953, 42953, 42954); (42960, 42960, 42961); (42966, 42966, 42967);
    (42968, 42968, 42969); (42997, 42997, 42998); (65313, 65338, 65345);
    (66560, 66599, 66600); (66736, 66771, 66776); (66928, 66938, 66967);
    (66940, 66954, 66979); (66956, 66962, 66995); (66964, 66965, 67003);
    (68736, 68786, 68800); (71840, 71871, 71872); (93760, 93791, 93792);
    (125184, 125217, 125218) ].

(** Runs of code points with the property Case_Ignorable. *)
Definition case_ignorable : list (N * N) :=
  [ (39, 39); (46, 46); (58, 58); (94, 94); (96, 96); (168, 168); (173, 173); (175, 175);
    (180, 180); (183, 184); (688, 879); (884, 885); (890, 890); (900, 901); (903, 903);
    (1155, 1161); (1369, 1369); (1375, 1375); (1425, 1469); (1471, 1471); (1473, 1474);
    (1476, 1477); (1479, 1479); (1524, 1524); (1536, 1541); (1552, 1562); (1564, 1564);
    (1600, 1600); (1611, 1631); (1648, 1648); (1750, 1757); (1759, 1768); (1770, 1773);
    (1807, 1807); (1809, 1809); (1840, 1866); (1958, 1968); (2027, 2037); (2042, 2042);
    (2045, 2045); (2070, 2093); (2137, 2139); (2184, 2184); (2192, 2193); (2200, 2207);
    (2249, 2306); (2362, 2362); (2364, 2364); (2369, 2376); (2381, 2381); (2385, 2391);
    (2402, 2403); (2417, 2417); (2433, 2433); (2492, 2492); (2497, 2500); (2509, 2509);
    (2530, 2531); (2558, 2558); (2561, 2562); (2620, 2620); (2625, 2626); (2631, 2632);
    (2635, 2637); (2641, 2641); (2672, 2673); (2677, 2677); (2689, 2690); (2748, 2748);
    (2753, 2757); (2759, 2760); (2765, 2765); (2786, 2787); (2810, 2815); (2817, 2817);
    (2876, 2876); (2879, 2879); (2881, 2884); (2893, 2893); (2901, 2902); (2914, 2915);
    (2946, 2946); (3008, 3008); (3021, 3021); (3072, 3072); (3076, 3076); (3132, 3132);
    (3134, 3136); (3142, 3144); (3146, 3149); (3157, 3158); (3170, 3171); (3201, 3201);
    (3260, 3260); (3263, 3263); (3270, 3270); (3276, 3277); (3298, 3299); (3328, 3329);
    (3387, 3388); (3393, 3396); (3405, 3405); (3426, 3427); (3457, 3457); (3530, 3530);
    (3538, 3540); (3542, 3542); (3633, 3633); (3636, 3642); (3654, 3662); (3761, 3761);
    (3764, 3772); (3782, 3782); (3784, 3789); (3864, 3865); (3893, 3893); (3895, 3895);
    (3897, 3897); (3953, 3966); (3968, 3972); (3974, 3975); (3981, 3991); (3993, 4028);
    (4038, 4038); (4141, 4144); (4146, 4151); (4153, 4154); (4157, 4158); (4184, 4185);
    (4190, 4192); (4209, 4212); (4226, 4226); (4229, 4230); (4237, 4237); (4253, 4253);
    (4348, 4348); (4957, 4959); (5906, 5908); (5938, 5939); (5970, 5971); (6002, 6003);
    (6068, 6069); (6071, 6077); (6086, 6086); (6089, 6099); (6103, 6103); (6109, 6109);
    (6155, 6159); (6211, 6211); (6277, 6278); (6313, 6313); (6432, 6434); (6439, 6440);
    (6450, 6450); (6457, 6459); (6679, 6680); (6683, 6683); (6742, 6742); (6744, 6750);
    (6752, 6752); (6754, 6754); (6757, 6764); (6771, 6780); (6783, 6783); (6823, 6823);
    (6832, 6862); (6912, 6915); (6964, 6964); (6966, 6970); (6972, 6972); (6978, 6978);
    (7019, 7027); (7040, 7041); (7074, 7077); (7080, 7081); (7083, 7085); (7142, 7142);
    (7144, 7145); (7149, 7149); (7151, 7153); (7212, 7219); (7222, 7223); (7288, 7293);
    (7376, 7378); (7380, 7392); (7394, 7400); (7405, 7405); (7412, 7412); (7416, 7417);
    (7468, 7530); (7544, 7544); (7579, 7679); (8125, 8125); (8127, 8129); (8141, 8143);
    (8157, 8159); (8173, 8175); (8189, 8190); (8203, 8207); (8216, 8217); (8228, 8228);
    (8231, 8231); (8234, 8238); (8288, 8292); (8294, 8303); (8305, 8305); (8319, 8319);
    (8336, 8348); (8400, 8432); (11388, 11389); (11503, 11505); (11631, 11631);
    (11647, 11647); (11744, 11775); (11823, 11823); (12293, 12293); (12330, 12333);
    (12337, 12341); (12347, 12347); (12441, 12446); (12540, 12542); (40981, 40981);
    (42232, 42237); (42508, 42508); (42607, 42610); (42612, 42621); (42623, 42623);
    (42652, 42655); (42736, 42737); (42752, 42785); (42864, 42864); (42888, 42890);
    (42994, 42996); (43000, 43001); (43010, 43010); (43014, 43014); (43019, 43019);
    (43045, 43046); (43052, 43052); (43204, 43205); (43232, 43249); (43263, 43263);
    (43302, 43309); (43335, 43345); (43392, 43394); (43443, 43443); (43446, 43449);
    (43452, 43453); (43471, 43471); (43493, 43494); (43561, 43566); (43569, 43570);
    (43573, 43574); (43587, 43587); (43596, 43596); (43632, 43632); (43644, 43644);
    (43696, 43696); (43698, 43700); (43703, 43704); (43710, 43711); (43713, 43713);
    (43741, 43741); (43756, 43757); (43763, 43764); (43766, 43766); (43867, 43871);
    (43881, 43883); (44005, 44005); (44008, 44008); (44013, 44013); (64286, 64286);
    (64434, 64450); (65024, 65039); (65043, 65043); (65056, 65071); (65106, 65106);
    (65109, 65109); (65279, 65279); (65287, 65287); (65294, 65294); (65306, 65306);
    (65342, 65342); (65344, 65344); (65392, 65392); (65438, 65439); (65507, 65507);
    (65529, 65531); (66045, 66045); (66272, 66272); (66422, 66426); (67456, 67461);
    (67463, 67504); (67506, 67514); (68097, 68099); (68101, 68102); (68108, 68111);
    (68152, 68154); (68159, 68159); (68325, 68326); (68900, 68903); (69291, 69292);
    (69446, 69456); (69506, 69509); (69633, 69633); (69688, 69702); (69744, 69744);
    (69747, 69748); (69759, 69761); (69811, 69814); (69817, 69818); (69821, 69821);
    (69826, 69826); (69837, 69837); (69888, 69890); (69927, 69931); (69933, 69940);
    (70003, 70003); (70016, 70017); (70070, 70078); (70089, 70092); (70095, 70095);
    (70191, 70193); (70196, 70196); (70198, 70199); (70206, 70206); (70367, 70367);
    (70371, 70378); (70400, 70401); (70459, 70460); (70464, 70464); (70502, 70508);
    (70512, 70516); (70712, 70719); (70722, 70724); (70726, 70726); (70750, 70750);
    (70835, 70840); (70842, 70842); (70847, 70848); (70850, 70851); (71090, 71093);
    (71100, 71101); (71103, 71104); (71132, 71133); (71219, 71226); (71229, 71229);
    (71231, 71232); (71339, 71339); (71341, 71341); (71344, 71349); (71351, 71351);
    (71453, 71455); (71458, 71461); (71463, 71467); (71727, 71735); (71737, 71738);
    (71995, 71996); (71998, 71998); (72003, 72003); (72148, 72151); (72154, 72155);
    (72160, 72160); (72193, 72202); (72243, 72248); (72251, 72254); (72263, 72263);
    (72273, 72278); (72281, 72283); (72330, 72342); (72344, 72345); (72752, 72758);
    (72760, 72765); (72767, 72767); (72850, 72871); (72874, 72880); (72882, 72883);
    (72885, 72886); (73009, 73014); (73018, 73018); (73020, 73021); (73023, 73029);
    (73031, 73031); (73104, 73105); (73109, 73109); (73111, 73111); (73459, 73460);
    (78896, 78904); (92912, 92916); (92976, 92982); (92992, 92995); (94031, 94031);
    (94095, 94111); (94176, 94177); (94179, 94180); (110576, 110579); (110581, 110587);
    (110589, 110590); (113821, 113822); (113824, 113827); (118528, 118573);
    (118576, 118598); (119143, 119145); (119155, 119170); (119173, 119179);
    (119210, 119213); (119362, 119364); (121344, 121398); (121403, 121452);
    (121461, 121461); (121476, 121476); (121499, 121503); (121505, 121519);
    (122880, 122886); (122888, 122904); (122907, 122913); (122915, 122916);
    (122918, 122922); (123184, 123197); (123566, 123566); (123628, 123631);
    (125136, 125142); (125252, 125259); (127995, 127999); (917505, 917505);
    (917536, 917631); (917760, 917999) ].

(** Runs of code points with the property Cased, among those that are not
    Case_Ignorable (the others are never asked). *)
Definition cased : list (N * N) :=
  [ (65, 90); (97, 122); (170, 170); (181, 181); (186, 186); (192, 214); (216, 246);
    (248, 442); (444, 447); (452, 659); (661, 687); (880, 883); (886, 887); (891, 893);
    (895, 895); (902, 902); (904, 906); (908, 908); (910, 929); (931, 1013); (1015, 1153);
    (1162, 1327); (1329, 1366); (1376, 1416); (4256, 4293); (4295, 4295); (4301, 4301);
    (4304, 4346); (4349, 4351); (5024, 5109); (5112, 5117); (7296, 7304); (7312, 7354);
    (7357, 7359); (7424, 7467); (7531, 7543); (7545, 7578); (7680, 7957); (7960, 7965);
    (7968, 8005); (8008, 8013); (8016, 8023); (8025, 8025); (8027, 8027); (8029, 8029);
    (8031, 8061); (8064, 8116); (8118, 8124); (8126, 8126); (8130, 8132); (8134, 8140);
    (8144, 8147); (8150, 8155); (8160, 8172); (8178, 8180); (8182, 8188); (8450, 8450);
    (8455, 8455); (8458, 8467); (8469, 8469); (8473, 8477); (8484, 8484); (8486, 8486);
    (8488, 8488); (8490, 8493); (8495, 8500); (8505, 8505); (8508, 8511); (8517, 8521);
    (8526, 8526); (8544, 8575); (8579, 8580); (9398, 9449); (11264, 11387); (11390, 11492);
    (11499, 11502); (11506, 11507); (11520, 11557); (11559, 11559); (11565, 11565);
    (42560, 42605); (42624, 42651); (42786, 42863); (42865, 42887); (42891, 42894);
    (42896, 42954); (42960, 42961); (42963, 42963); (42965, 42969); (42997, 42998);
    (43002, 43002); (43824, 43866); (43872, 43880); (43888, 43967); (64256, 64262);
    (64275, 64279); (65313, 65338); (65345, 65370); (66560, 66639); (66736, 66771);
    (66776, 66811); (66928, 66938); (66940, 66954); (66956, 66962); (66964, 66965);
    (66967, 66977); (66979, 66993); (66995, 67001); (67003, 67004); (68736, 68786);
    (68800, 68850); (71840, 71903); (93760, 93823); (119808, 119892); (119894, 119964);
    (119966, 119967); (119970, 119970); (119973, 119974); (119977, 119980);
    (119982, 119993); (119995, 119995); (119997, 120003); (120005, 120069);
    (120071, 120074); (120077, 120084); (120086, 120092); (120094, 120121);
    (120123, 120126); (120128, 120132); (120134, 120134); (120138, 120144);
    (120146, 120485); (120488, 120512); (120514, 120538); (120540, 120570);
    (120572, 120596); (120598, 120628); (120630, 120654); (120656, 120686);
    (120688, 120712); (120714, 120744); (120746, 120770); (120772, 120779);
    (122624, 122633); (122635, 122654); (125184, 125251); (127280, 127305);
    (127312, 127337); (127344, 127369) ].

End Unicode.

(** ** Python strings

    A string of this file holds the UTF-8 bytes of a Python text; a lone
    surrogate, which a JSON escape can produce, is held as its three
    bytes. *)

Module PyStr.

Definition code (c : ascii) : nat := nat_of_ascii c.

Definition chars (s : string) : list ascii := list_ascii_of_string s.

(** *** Code points *)

Definition byte (c : ascii) : N := N_of_ascii c.

Definition continuation (c : ascii) : bool :=
  (128 <=? byte c)%N && (byte c <=? 191)%N.

(** A byte that starts no well-formed sequence stands for itself, above the
    range of the code points. *)
Definition stray (c : ascii) : N := (1114112 + byte c)%N.

Fixpoint decode (bs : list ascii) : list N :=
  match bs with
  | [] => []
  | b0 :: r0 =>
      let n0 := byte b0 in
      if (n0 <? 128)%N then n0 :: decode r0
      else
        match r0 with
        | b1 :: r1 =>
            if continuation b1 then
              let n1 := (byte b1 - 128)%N in
              if (194 <=? n0)%N && (n0 <=? 223)%N
              then ((n0 - 192) * 64 + n1)%N :: decode r1
              else
                match r1 with
                | b2 :: r2 =>
                    if continuation b2 then
                      let n2 := (byte b2 - 128)%N in
                      let cp3 := ((n0 - 224) * 4096 + n1 * 64 + n2)%N in
                      if (224 <=? n0)%N && (n0 <=? 239)%N && (2048 <=? cp3)%N
                      then cp3 :: decode r2
                      else
                        match r2 with
                        | b3 :: r3 =>
                            let cp4 := ((n0 - 240) * 262144 + n1 * 4096 + n2 * 64
                                        + (byte b3 - 128))%N in
                            if continuation b3 && (240 <=? n0)%N && (n0 <=? 244)%N
                               && (65536 <=? cp4)%N && (cp4 <=? 1114111)%N
                            then cp4 :: decode r3
                            else stray b0 :: decode r0
                        | [] => stray b0 :: decode r0
                        end
                    else stray b0 :: decode r0
                | [] => stray b0 :: decode r0
                end
            else stray b0 :: decode r0
        | [] => [stray b0]
        end
  end.

Definition encode_one (cp : N) : list ascii :=
  if (cp <? 128)%N then [ascii_of_N cp]
  else if (cp <? 2048)%N then
    [ascii_of_N (192 + cp / 64); ascii_of_N (128 + cp mod 64)]
  else if (cp <? 65536)%N then
    [ascii_of_N (224 + cp / 4096); ascii_of_N (128 + (cp / 64) mod 64);
     ascii_of_N (128 + cp mod 64)]
  else if (cp <? 1114112)%N then
    [ascii_of_N (240 + cp / 262144); ascii_of_N (128 + (cp / 4096) mod 64);
     ascii_of_N (128 + (cp / 64) mod 64); ascii_of_N (128 + cp mod 64)]
  else [ascii_of_N ((cp - 1114112) mod 256)].

Definition encode (cps : list N) : list ascii := flat_map encode_one cps.

(** The string of a list of code points. *)
Definition utf8 (cps : list N) : string := string_of_list_ascii (encode cps).

(** All code points below 128. *)
Definition is_ascii (bs : list ascii) : bool :=
  forallb (fun b => (byte b <? 128)%N) bs.

Fixpoint in_runs (cp : N) (runs : list (N * N)) : bool :=
  match runs with
  | [] => false
  | (lo, hi) :: rest => (lo <=? cp)%N && (cp <=? hi)%N || in_runs cp rest
  end.

(** [str.isspace] on one code point. *)
Definition isspace (cp : N) : bool := existsb (N.eqb cp) Unicode.whitespace.

(** The value of a decimal digit of any script. *)
Fixpoint decimal_in (cp : N) (zeros : list N) : option N :=
  match zeros with
  | [] => None
  | z :: rest =>
      if (z <=? cp)%N && (cp <? z + 10)%N then Some (cp - z)%N else decimal_in cp rest
  end.

Definition to_decimal (cp : N) : option N := decimal_in cp Unicode.decimal_zeros.

(** *** [s.lower()] and [s.strip()] *)

Fixpoint lower_in (cp : N) (table : list (N * N * N)) : N :=
  match table with
  | [] => cp
  | (lo, hi, lo') :: rest =>
      if (lo <=? cp)%N && (cp <=? hi)%N then (lo' + (cp - lo))%N else lower_in cp rest
  end.

(** The lower case of one code point; the capital I with a dot gives two. *)
Definition lower_one (cp : N) : list N :=
  if (cp =? 304)%N then [105; 775]%N else [lower_in cp Unicode.lowercase].

(** The first code point that is not Case_Ignorable is Cased. *)
Fixpoint cased_next (cps : list N) : bool :=
  match cps with
  | [] => false
  | c :: rest =>
      if in_runs c Unicode.case_ignorable then cased_next rest
      else in_runs c Unicode.cased
  end.

(** A capital sigma becomes a final sigma after a cased letter when no
    cased letter follows.  [before] holds the code points already passed,
    the nearest first. *)
Fixpoint lower_from (before cps : list N) : list N :=
  match cps with
  | [] => []
  | c :: rest =>
      ((if (c =? 931)%N
        then [if cased_next before && negb (cased_next rest) then 962 else 963]%N
        else lower_one c)
       ++ lower_from (c :: before) rest)%list
  end.

Section Lists.
Context {A : Type}.

Fixpoint drop_while (p : A -> bool) (cs : list A) : list A :=
  match cs with
  | c :: rest => if p c then drop_while p rest else cs
  | [] => []
  end.

Definition strip_with (p : A -> bool) (cs : list A) : list A :=
  rev (drop_while p (rev (drop_while p cs))).

End Lists.

(** [s.lower()]: every code point in lower case. *)
Definition lower (s : string) : string :=
  utf8 (lower_from [] (decode (chars s))).

(** [s.strip()]: the text without the white space at its two ends. *)
Definition strip (s : string) : string :=
  utf8 (strip_with isspace (decode (chars s))).

(** *** The text accepted by [float()] *)

(** White space as the C parser of [float()] sees it. *)
Definition isspace_c (c : ascii) : bool :=
  let n := code c in
  ((9 <=? n) && (n <=? 13) || (n =? 32))%nat.

Definition isdigit (c : ascii) : bool :=
  let n := code c in ((48 <=? n) && (n <=? 57))%nat.

Definition digit_value (c : ascii) : Z := Z.of_nat (code c) - 48.

(** What [float()] and [int()] hand to their C parsers: an ASCII text as it
    is; otherwise every space becomes a blank and every decimal digit its
    ASCII digit, and the text is cut after a question mark put for the
    first code point that is neither. *)
Fixpoint to_ascii (cps : list N) : list ascii :=
  match cps with
  | [] => []
  | c :: rest =>
      if (c <? 127)%N then ascii_of_N c :: to_ascii rest
      else if isspace c then " "%char :: to_ascii rest
      else
        match to_decimal c with
        | Some d => ascii_of_N (48 + d) :: to_ascii rest
        | None => ["?"%char]
        end
  end.

Definition number_text (s : string) : list ascii :=
  let bs := chars s in
  if is_ascii bs then bs else to_ascii (decode bs).

(** The C macro Py_TOLOWER, with which the parser compares the letters of
    [inf], [nan] and of the exponent: the letters A to Z only. *)
Definition to_lower_c (c : ascii) : ascii :=
  let n := code c in
  if ((65 <=? n) && (n <=? 90))%nat then ascii_of_nat (n + 32) else c.

Definition ascii_eqb_ci (a b : ascii) : bool := Ascii.eqb (to_lower_c a) (to_lower_c b).

Fixpoint matches_ci (word cs : list ascii) : bool :=
  match word, cs with
  | [], [] => true
  | w :: word', c :: cs' => ascii_eqb_ci w c && matches_ci word' cs'
  | _, _ => false
  end.

(** Underscores may only stand between two digits; they are then dropped. *)
Fixpoint drop_underscores (prev_digit : bool) (cs : list ascii) : option (list ascii) :=
  match cs with
  | [] => Some []
  | c :: rest =>
      if Ascii.eqb c "_" then
        match rest with
        | d :: _ => if prev_digit && isdigit d then drop_underscores false rest else None
        | [] => None
        end
      else option_map (cons c) (drop_underscores (isdigit c) rest)
  end.

Fixpoint span_digits (cs : list ascii) : list ascii * list ascii :=
  match cs with
  | c :: rest =>
      if isdigit c then let (ds, tl) := span_digits rest in (c :: ds, tl)
      else ([], cs)
  | [] => ([], [])
  end.

Definition digit_step (acc : Z) (d : ascii) : Z := 10 * acc + digit_value d.

Definition digits_value (ds : list ascii) : Z := fold_left digit_step ds 0.

Definition split_sign (cs : list ascii) : bool * list ascii :=
  match cs with
  | c :: rest =>
      if Ascii.eqb c "-" then (true, rest)
      else if Ascii.eqb c "+" then (false, rest)
      else (false, cs)
  | [] => (false, [])
  end.

(** The exponent part: nothing, or [e], an optional sign and digits up to
    the end of the text. *)
Definition parse_exponent (cs : list ascii) : option Z :=
  match cs with
  | [] => Some 0
  | c :: rest =>
      if ascii_eqb_ci c "e" then
        let (neg, rest') := split_sign rest in
        match span_digits rest' with
        | ((_ :: _) as ds, []) => Some (if neg then - digits_value ds else digits_value ds)
        | _ => None
        end
      else None
  end.

Definition parse_decimal (neg : bool) (cs : list ascii) : option PyFloat.float :=
  let (int_part, r1) := span_digits cs in
  let (frac_part, r2) :=
    match r1 with
    | c :: rest => if Ascii.eqb c "." then span_digits rest else ([], r1)
    | [] => ([], [])
    end in
  match (int_part ++ frac_part)%list with
  | [] => None
  | ds =>
      match parse_exponent r2 with
      | Some ex => Some (PyFloat.of_decimal neg (digits_value ds) (ex - Z.of_nat (List.length frac_part)))
      | None => None
      end
  end.

(** The C parser of [float()]. *)
Definition float_of_ascii (text : list ascii) : option PyFloat.float :=
  match drop_underscores false text with
  | None => None
  | Some cs =>
      let (neg, body) := split_sign (strip_with isspace_c cs) in
      if matches_ci (chars "inf") body || matches_ci (chars "infinity") body
      then Some (S754_infinity neg)
      else if matches_ci (chars "nan") body then Some S754_nan
      else parse_decimal neg body
  end.

(** [float(s)] on a string: [None] stands for the [ValueError]. *)
Definition float_of_string (s : string) : option PyFloat.float :=
  float_of_ascii (number_text s).

End PyStr.

(** ** Python values *)

(** What a parsed JSON document can hold. *)
#[local] Set Warnings "-register-all".
Inductive value : Type :=
| VNone
| VBool (b : bool)
| VInt (n : Z)
| VFloat (f : PyFloat.float)
| VStr (s : string)
| VList (items : list value)
| VDict (members : list (string * value)).

(** Numbers the prediction pipeline returns: [max(0, x)] answers the [int]
    zero or the float [x], and [round] keeps the type. *)
Inductive number : Type :=
| NInt (n : Z)
| NFloat (f : PyFloat.float).

Definition type_name (v : value) : string :=
  match v with
  | VNone => "NoneType"
  | VBool _ => "bool"
  | VInt _ => "int"
  | VFloat _ => "float"
  | VStr _ => "str"
  | VList _ => "list"
  | VDict _ => "dict"
  end.

(** Dictionaries keep their insertion order. *)
Section Dict.
Context {V : Type}.

Fixpoint dict_get (d : list (string * V)) (key : string) (default : V) : V :=
  match d with
  | [] => default
  | (k, v) :: rest => if String.eqb k key then v else dict_get rest key default
  end.

Fixpoint dict_set (d : list (string * V)) (key : string) (v : V) : list (string * V) :=
  match d with
  | [] => [(key, v)]
  | (k, w) :: rest =>
      if String.eqb k key then (k, v) :: rest else (k, w) :: dict_set rest key v
  end.

End Dict.

(** Truth value of an object. *)
Definition truthy (v : value) : bool :=
  match v with
  | VNone => false
  | VBool b => b
  | VInt n => negb (Z.eqb n 0)
  | VFloat (S754_zero _) => false
  | VFloat _ => true
  | VStr s => negb (String.eqb s "")
  | VList [] => false
  | VList _ => true
  | VDict [] => false
  | VDict _ => true
  end.

(** [v or d] *)
Definition py_or (v d : value) : value := if truthy v then v else d.

(** [float(v)] *)
Definition py_float (v : value) : result PyFloat.float :=
  match v with
  | VBool b => Ok (PyFloat.nearest_of_Z (if b then 1 else 0))
  | VInt n => PyFloat.of_int n
  | VFloat f => Ok f
  | VStr s =>
      match PyStr.float_of_string s with
      | Some f => Ok f
      | None => Raise (ValueError_float s)
      end
  | other => Raise (TypeError_float (type_name other))
  end.

(** [max(0, x)] for a float [x]: the second argument wins only when
    [x > 0] holds, so a NaN, a zero or a negative [x] gives the [int] 0. *)
Definition max_0 (x : PyFloat.float) : number :=
  if PyFloat.ltb PyFloat.pos_zero x then NFloat x else NInt 0.

(** [round(v, 2)] *)
Definition round_2 (v : number) : number :=
  match v with
  | NInt n => NInt n
  | NFloat f => NFloat (PyFloat.round2 f)
  end.

(** [pd.isna] on a scalar. *)
Definition isna_scalar (v : value) : bool :=
  match v with
  | VNone => true
  | VFloat S754_nan => true
  | _ => false
  end.

(** * The program *)

(** ** What the program takes from outside

    The file system, the deserializer, the fitted artifacts, pandas and the
    web framework are collaborators of [app.py]; a [World] fixes how they
    answer.  An unpickled object is [None] or an [artifact]. *)

(** One row with the six columns of [build_input_df].  pandas keeps the
    object of each cell: a [None] stays [None], and a number comes back with
    the truth value and the [float()] of the number that was put in, so a
    cell is modelled by the JSON value itself.  The column Condition is
    always there, so the test ["Condition" in X.columns] holds. *)
Record DataFrame : Type := {
  Plastic_Type : value;
  Condition : value;
  Weight_Kg : value;
  Age_Months : value;
  Original_Price : value;
  Location : value
}.

Inductive jvalue : Type :=
| JNull
| JBool (b : bool)
| JNum (n : number)
| JStr (s : string)
| JExcText (e : exn).   (* str(e) *)

Inductive content : Type :=
| Html (text : string)
| Json (members : list (string * jvalue))
| RawFile (directory name : string).

Record response : Type := { status : Z; body : content }.

Record World : Type := {
  artifact : Type;
  (* os.path.isfile *)
  isfile : string -> bool;
  (* joblib.load *)
  joblib_load : string -> result (option artifact);
  (* repr of a float, a list or a dict *)
  repr : value -> string;
  (* bool(pd.isna(cell)) when the cell holds a list *)
  isna_list_truth : list value -> result bool;
  (* preprocessor.transform(X), preprocessor.get_feature_names_out() *)
  matrix : Type;
  transform : artifact -> DataFrame -> result matrix;
  get_feature_names_out : artifact -> result (list string);
  n_columns : matrix -> nat;
  (* pd.DataFrame(transformed, columns=cols) *)
  frame : Type;
  make_frame : matrix -> list string -> result frame;
  (* float(m.predict(X_enc)[0]) *)
  predict_first : option artifact -> frame -> result PyFloat.float;
  (* request.get_json(force=True) on the body of the request *)
  get_json : string -> result value;
  (* flask.render_template, flask.send_from_directory *)
  render_template : string -> result string;
  send_from_directory : string -> string -> result response;
  (* str(rule) for the rules of app.url_map *)
  url_rules : list string
}.

(** ** Configuration *)

Definition os_path_join (dir name : string) : string :=
  match name with
  | String "/" _ => name
  | _ => dir ++ "/" ++ name
  end.

Definition MODELS_DIR : string := "models".
Definition PREPROCESSOR_PKL : string := os_path_join MODELS_DIR "preprocessor.pkl".
Definition MODEL_FILES : list (string * string) :=
  [ ("Resale_Value", os_path_join MODELS_DIR "Resale_Value_GradientBoosting_Model.pkl");
    ("Recycle_Value", os_path_join MODELS_DIR "Recycle_Value_GradientBoosting_Model.pkl");
    ("Reuse_Score", os_path_join MODELS_DIR "Reuse_Score_GradientBoosting_Model.pkl") ].

Definition template_folder : string := "templates".

Definition condition_mapping : list (string * Z) :=
  [ ("cracked", 1); ("used", 2); ("good", 3); ("new", 4) ].

(** ** The input mapper *)

(** [payload.get(key)] *)
Definition payload_get (payload : value) (key : string) : result value :=
  match payload with
  | VDict members => Ok (dict_get members key VNone)
  | other => Raise (AttributeError (type_name other) "get")
  end.

Definition build_input_df (payload : value) : result DataFrame :=
  ptype <- payload_get payload "ptype" ;;
  condition <- payload_get payload "condition" ;;
  weight <- payload_get payload "weight" ;;
  age <- payload_get payload "age" ;;
  price <- payload_get payload "price" ;;
  location <- payload_get payload "location" ;;
  Ok {| Plastic_Type := ptype; Condition := condition; Weight_Kg := weight;
        Age_Months := age; Original_Price := price; Location := location |}.

(** ** The fallback of [predict_all_targets] *)

Definition fallback (df_raw : DataFrame) : result (list (string * number)) :=
  price <- py_float (py_or (Original_Price df_raw) (VInt 0)) ;;
  weight <- py_float (py_or (Weight_Kg df_raw) (VInt 0)) ;;
  age <- py_float (py_or (Age_Months df_raw) (VInt 0)) ;;
  Ok [ ("Resale_Value",
         round_2 (max_0 (PyFloat.sub (PyFloat.mul price PyFloat.lit_0_2)
                                     (PyFloat.mul age PyFloat.lit_0_1))));
       ("Recycle_Value", round_2 (max_0 (PyFloat.mul weight PyFloat.lit_12_0)));
       ("Reuse_Score", round_2 (max_0 (PyFloat.sub PyFloat.lit_100 age))) ].

Section Service.
Variable W : World.

(** ** The model bundle: the three module-level globals *)

Record Bundle : Type := {
  preprocessor : option (artifact W);
  models : list (string * option (artifact W));
  models_loaded : bool
}.

Definition initial_bundle : Bundle :=
  {| preprocessor := None; models := []; models_loaded := false |}.

(** Statements that read and write the globals and may raise: the globals
    written before an exception stay written.  The [print] calls of the
    loader are left out. *)
Definition Cmd (A : Type) : Type := Bundle -> Bundle * result A.

Definition ret {A : Type} (a : A) : Cmd A := fun g => (g, Ok a).
Definition raise {A : Type} (e : exn) : Cmd A := fun g => (g, Raise e).
Definition lift {A : Type} (r : result A) : Cmd A := fun g => (g, r).
Definition seq {A B : Type} (c : Cmd A) (k : A -> Cmd B) : Cmd B :=
  fun g => match c g with
           | (g', Ok a) => k a g'
           | (g', Raise e) => (g', Raise e)
           end.
Definition try_except {A : Type} (c : Cmd A) (handler : exn -> Cmd A) : Cmd A :=
  fun g => match c g with
           | (g', Ok a) => (g', Ok a)
           | (g', Raise e) => handler e g'
           end.

Definition set_preprocessor (o : option (artifact W)) : Cmd unit :=
  fun g => ({| preprocessor := o; models := models g; models_loaded := models_loaded g |}, Ok tt).
Definition set_model (k : string) (o : option (artifact W)) : Cmd unit :=
  fun g => ({| preprocessor := preprocessor g; models := dict_set (models g) k o;
               models_loaded := models_loaded g |}, Ok tt).
Definition set_models_loaded (b : bool) : Cmd unit :=
  fun g => ({| preprocessor := preprocessor g; models := models g; models_loaded := b |}, Ok tt).

(** [for k, p in MODEL_FILES.items(): ...] *)
Fixpoint load_each (files : list (string * string)) : Cmd unit :=
  match files with
  | [] => ret tt
  | (k, p) :: rest =>
      seq (if isfile W p
           then seq (lift (joblib_load W p)) (set_model k)
           else raise (FileNotFoundError p))
          (fun _ => load_each rest)
  end.

Definition try_load_models : Cmd unit :=
  try_except
    (seq (if isfile W PREPROCESSOR_PKL
          then seq (lift (joblib_load W PREPROCESSOR_PKL)) set_preprocessor
          else raise (FileNotFoundError PREPROCESSOR_PKL))
    (fun _ => seq (load_each MODEL_FILES)
    (fun _ => set_models_loaded true)))
    (fun e => set_models_loaded false).

(** The module runs [try_load_models()] once while it is imported. *)
Definition startup : Bundle := fst (try_load_models initial_bundle).

(** ** The prediction pipeline *)

(** [str(v)]; the text of a float or of a container is the interpreter's. *)
Definition py_str (v : value) : string :=
  match v with
  | VStr s => s
  | VNone => "None"
  | VBool b => if b then "True" else "False"
  | VInt n => NilZero.string_of_int (Z.to_int n)
  | other => repr W other
  end.

Definition _map_cond (v : value) : result Z :=
  na <- match v with
        | VList items => isna_list_truth W items
        | scalar => Ok (isna_scalar scalar)
        end ;;
  if (na : bool) then Ok 0
  else Ok (dict_get condition_mapping (PyStr.strip (PyStr.lower (py_str v))) 0).

(** [X["Condition"] = X["Condition"].apply(_map_cond)] on the copy [X]. *)
Definition map_condition (X : DataFrame) : result DataFrame :=
  ordinal <- _map_cond (Condition X) ;;
  Ok {| Plastic_Type := Plastic_Type X; Condition := VInt ordinal;
        Weight_Kg := Weight_Kg X; Age_Months := Age_Months X;
        Original_Price := Original_Price X; Location := Location X |}.

(** [[f"f{i}" for i in range(n)]] *)
Definition positional_names (n : nat) : list string :=
  map (fun i => "f" ++ NilZero.string_of_uint (Nat.to_uint i)) (List.seq 0 n).

(** [for k, m in models.items(): out[k] = float(m.predict(X_enc)[0])] *)
Fixpoint predict_each (ms : list (string * option (artifact W))) (X_enc : frame W)
    (out : list (string * number)) : result (list (string * number)) :=
  match ms with
  | [] => Ok out
  | (k, m) :: rest =>
      y <- predict_first W m X_enc ;;
      predict_each rest X_enc (dict_set out k (NFloat y))
  end.

(** The test [models_loaded and preprocessor is not None and models]. *)
Definition model_backed (g : Bundle) : bool :=
  models_loaded g
  && match preprocessor g with Some _ => true | None => false end
  && match models g with [] => false | _ :: _ => true end.

(** The branch taken when the test holds. *)
Definition model_pipeline (p : artifact W) (ms : list (string * option (artifact W)))
    (df_raw : DataFrame) : result (list (string * number)) :=
  X <- map_condition df_raw ;;
  transformed <- transform W p X ;;
  let cols := match get_feature_names_out W p with
              | Ok names => names
              | Raise _ => positional_names (n_columns W transformed)
              end in
  X_enc <- make_frame W transformed cols ;;
  predict_each ms X_enc [].

Definition predict_all_targets (g : Bundle) (df_raw : DataFrame)
    : result (list (string * number)) :=
  match models_loaded g, preprocessor g, models g with
  | true, Some p, (_ :: _) as ms => model_pipeline p ms df_raw
  | _, _, _ => fallback df_raw
  end.

(** ** Pages *)

Definition render_or_static (fname : string) : result response :=
  let tpl := os_path_join template_folder fname in
  if isfile W tpl then
    match render_template W fname with
    | Ok page => Ok {| status := 200; body := Html page |}
    | Raise _ => send_from_directory W template_folder fname
    end
  else Ok {| status := 404; body := Html "Template not found on server" |}.

Definition index : result response := render_or_static "index.html".
Definition ourai : result response := render_or_static "ourai.html".
Definition about : result response := render_or_static "about.html".
Definition contact : result response := render_or_static "contact.html".

Definition quote : string := String (ascii_of_nat 34) EmptyString.

Definition routes : result response :=
  let links :=
    String.concat ""
      (map (fun r => "<li><a href=" ++ quote ++ r ++ quote ++ ">" ++ r ++ "</a></li>")
           (url_rules W)) in
  Ok {| status := 200;
        body := Html ("<h3>Registered routes</h3><ul>" ++ links
                      ++ "</ul><p>Open / or /ourai.</p>") |}.

(** [s.endswith(suffix)] *)
Definition endswith (s suffix : string) : bool :=
  let n := String.length s in
  let m := String.length suffix in
  (m <=? n)%nat && String.eqb (substring (n - m) m s) suffix.

Definition catch_all (subpath : string) : result response :=
  let candidate := subpath in
  let tpl_path := os_path_join template_folder candidate in
  if isfile W tpl_path && endswith candidate ".html"
  then render_or_static candidate
  else render_or_static "index.html".

(** ** The prediction endpoint *)

(** [preds.get(key)] as [jsonify] writes it. *)
Definition preds_get (preds : list (string * number)) (key : string) : jvalue :=
  dict_get (map (fun kv => (fst kv, JNum (snd kv))) preds) key JNull.

Definition predict (g : Bundle) (request_body : string) : response :=
  match get_json W request_body with
  | Raise _ => {| status := 400; body := Json [("error", JStr "Invalid JSON")] |}
  | Ok payload =>
      match (df <- build_input_df payload ;; predict_all_targets g df) with
      | Raise e =>
          {| status := 500;
             body := Json [("error", JStr "Prediction failed"); ("details", JExcText e)] |}
      | Ok preds =>
          {| status := 200;
             body := Json [ ("resale_value", preds_get preds "Resale_Value");
                            ("recycle_score", preds_get preds "Recycle_Value");
                            ("reuse_score", preds_get preds "Reuse_Score");
                            ("models_loaded", JBool (models_loaded g)) ] |}
      end
  end.

(** ** The running service *)

(** A request, already matched to its view function by the router. *)
Inductive request : Type :=
| Get_index
| Get_ourai
| Get_about
| Get_contact
| Get_routes
| Post_predict (request_body : string)
| Get_unmatched (subpath : string).

(** No view function assigns a global: the bundle is handed on as it is. *)
Definition serve (g : Bundle) (rq : request) : Bundle * result response :=
  match rq with
  | Get_index => (g, index)
  | Get_ourai => (g, ourai)
  | Get_about => (g, about)
  | Get_contact => (g, contact)
  | Get_routes => (g, routes)
  | Post_predict request_body => (g, Ok (predict g request_body))
  | Get_unmatched subpath => (g, catch_all subpath)
  end.

(** The bundles the service can be in: the one left by the load attempt of
    the import, and whatever serving a request leaves. *)
Inductive reachable : Bundle -> Prop :=
| reach_startup : reachable startup
| reach_serve (g : Bundle) (rq : request) :
    reachable g -> reachable (fst (serve g rq)).

End Service.

Arguments preprocessor {W} _.
Arguments models {W} _.
Arguments models_loaded {W} _.

(** ** The specification's side *)

(** The condition vocabulary as the specification writes it. *)
Definition vocabulary_ordinal (word : string) : Z :=
  if String.eqb word "cracked" then 1
  else if String.eqb word "used" then 2
  else if String.eqb word "good" then 3
  else if String.eqb word "new" then 4
  else 0.

(** A field read as a number: a JSON number is itself, a missing or null
    field is zero; anything else is not a number. *)
Definition number_read (v : value) : option PyFloat.float :=
  match v with
  | VNone => Some PyFloat.pos_zero
  | VInt n => match PyFloat.of_int n with Ok f => Some f | Raise _ => None end
  | VFloat f => Some f
  | _ => None
  end.

(** The three closed-form scores. *)
Definition resale_formula (price age : PyFloat.float) : number :=
  round_2 (max_0 (PyFloat.sub (PyFloat.mul price PyFloat.lit_0_2)
                              (PyFloat.mul age PyFloat.lit_0_1))).
Definition recycle_formula (weight : PyFloat.float) : number :=
  round_2 (max_0 (PyFloat.mul weight PyFloat.lit_12_0)).
Definition reuse_formula (age : PyFloat.float) : number :=
  round_2 (max_0 (PyFloat.sub PyFloat.lit_100 age)).

(** A float that is not a NaN and carries the sign [s]. *)
Inductive signed_as (s : bool) : PyFloat.float -> Prop :=
| signed_zero : signed_as s (S754_zero s)
| signed_finite (m : positive) (e : Z) : signed_as s (S754_finite s m e)
| signed_infinity : signed_as s (S754_infinity s).

(** Two floats that differ at most in the sign of a zero. *)
Inductive same_number : PyFloat.float -> PyFloat.float -> Prop :=
| same_float (x : PyFloat.float) : same_number x x
| same_zero (s s' : bool) : same_number (S754_zero s) (S754_zero s').

(** [v >= 0] on a returned number. *)
Definition nonneg (v : number) : bool :=
  match v with
  | NInt n => (0 <=? n)%Z
  | NFloat f => PyFloat.leb PyFloat.pos_zero f
  end.


(** The decimal numeral of a natural number. *)
Definition decimal (n : N) : string := NilZero.string_of_uint (N.to_uint n).

Definition is_mapping (v : value) : bool :=
  match v with VDict _ => true | _ => false end.

(** All four artifact files are there and unpickle without raising. *)
Definition all_deserialized (W : World) : bool :=
  forallb (fun p => isfile W p && is_ok (joblib_load W p))
          (PREPROCESSOR_PKL :: map snd MODEL_FILES).

(** What the load attempt leaves behind. *)
Definition preprocessor_kept (W : World) : option (artifact W) :=
  if isfile W PREPROCESSOR_PKL then
    match joblib_load W PREPROCESSOR_PKL with Ok o => o | Raise _ => None end
  else None.

Fixpoint models_kept (W : World) (files : list (string * string))
    : list (string * option (artifact W)) :=
  match files with
  | [] => []
  | (k, p) :: rest =>
      if isfile W p then
        match joblib_load W p with
        | Ok o => (k, o) :: models_kept W rest
        | Raise _ => []
        end
      else []
  end.

Definition startup_expected (W : World) : Bundle W :=
  {| preprocessor := preprocessor_kept W;
     models := if isfile W PREPROCESSOR_PKL && is_ok (joblib_load W PREPROCESSOR_PKL)
               then models_kept W MODEL_FILES else [];
     models_loaded := all_deserialized W |}.

(** ** Sample worlds *)

Definition sample_world (files : string -> bool)
    (unpickle : string -> result (option unit)) (parsed : result value) : World :=
  {| artifact := unit;
     isfile := files;
     joblib_load := unpickle;
     repr := fun _ => "<object>";
     isna_list_truth := fun _ => Raise ValueError_truth;
     matrix := unit;
     transform := fun _ _ => Ok tt;
     get_feature_names_out := fun _ => Raise (ExternalError "no feature names");
     n_columns := fun _ => 0%nat;
     frame := unit;
     make_frame := fun _ _ => Ok tt;
     predict_first := fun _ _ => Ok (PyFloat.nearest_of_Z 1);
     get_json := fun _ => parsed;
     render_template := fun name => Ok name;
     send_from_directory := fun d name => Ok {| status := 200; body := RawFile d name |};
     url_rules := [] |}.

(** No artifact on disk. *)
Definition bare_world (parsed : result value) : World :=
  sample_world (fun _ => false) (fun p => Raise (FileNotFoundError p)) parsed.

(** Every artifact on disk, but [preprocessor.pkl] holds a pickled [None]. *)
Definition null_preprocessor_world (parsed : result value) : World :=
  sample_world (fun _ => true)
    (fun p => if String.eqb p PREPROCESSOR_PKL then Ok None else Ok (Some tt)) parsed.

(** The preprocessor and the first model on disk, the second model missing. *)
Definition partial_world : World :=
  sample_world
    (fun p => String.eqb p PREPROCESSOR_PKL
              || String.eqb p (os_path_join MODELS_DIR "Resale_Value_GradientBoosting_Model.pkl"))
    (fun _ => Ok (Some tt)) (Raise BadRequest).

Definition record_of (price age weight : value) : DataFrame :=
  {| Plastic_Type := VNone; Condition := VNone; Weight_Kg := weight;
     Age_Months := age; Original_Price := price; Location := VNone |}.

(** ** More of the program *)

(** [int(s)] on a string, base 10: [None] stands for the [ValueError].  The
    interpreter refuses more than [max_str_digits] digits when that limit is
    not zero (4300 by default since CPython 3.11, none before). *)
Definition int_of_string (max_str_digits : nat) (s : string) : option Z :=
  match PyStr.drop_underscores false (PyStr.number_text s) with
  | None => None
  | Some cs =>
      let (neg, body) := PyStr.split_sign (PyStr.strip_with PyStr.isspace_c cs) in
      match PyStr.span_digits body with
      | ((_ :: _) as ds, []) =>
          if negb (max_str_digits =? 0)%nat && (max_str_digits <? List.length ds)%nat
          then None
          else Some (if neg then - PyStr.digits_value ds else PyStr.digits_value ds)
      | _ => None
      end
  end.

(** [port = int(os.environ.get("PORT", 8080))] of the entry point; the
    argument is the value of the variable PORT, if it is set. *)
Definition port_of_env (max_str_digits : nat) (PORT : option string) : option Z :=
  match PORT with
  | Some s => int_of_string max_str_digits s
  | None => Some 8080
  end.

(** The list item [routes] writes for one rule. *)
Definition route_item (r : string) : string :=
  "<li><a href=" ++ quote ++ r ++ quote ++ ">" ++ r ++ "</a></li>".

(** The predictions of the models, one after the other, as floats. *)
Fixpoint scores_in_order (W : World) (ms : list (string * option (artifact W)))
    (X_enc : frame W) : result (list (string * number)) :=
  match ms with
  | [] => Ok []
  | (k, m) :: rest =>
      y <- predict_first W m X_enc ;;
      scores <- scores_in_order W rest X_enc ;;
      Ok ((k, NFloat y) :: scores)
  end.

(** A float that is a NaN, a zero or below zero; one that is a NaN, a zero
    or above zero. *)
Definition not_above_zero (x : PyFloat.float) : bool :=
  match x with
  | S754_nan | S754_zero _ => true
  | S754_infinity s | S754_finite s _ _ => s
  end.

Definition not_below_zero (x : PyFloat.float) : bool :=
  match x with
  | S754_nan | S754_zero _ => true
  | S754_infinity s | S754_finite s _ _ => negb s
  end.

(** A NaN, a zero, or a float of sign [s]. *)
Inductive zero_or_signed (s : bool) : PyFloat.float -> Prop :=
| zs_nan : zero_or_signed s S754_nan
| zs_zero (s' : bool) : zero_or_signed s (S754_zero s')
| zs_signed (x : PyFloat.float) : signed_as s x -> zero_or_signed s x.

(** A world with every file on disk whose artifacts and rules are chosen
    freely: [encode] is the transform of the preprocessor, [score] the
    prediction of a model. *)
Definition lab_world (unpickle : string -> result (option nat))
    (encode : DataFrame -> result unit) (score : option nat -> result PyFloat.float)
    (rules : list string) (parsed : result value) : World :=
  {| artifact := nat;
     isfile := fun _ => true;
     joblib_load := unpickle;
     repr := fun _ => "<object>";
     isna_list_truth := fun _ => Raise ValueError_truth;
     matrix := unit;
     transform := fun _ X => encode X;
     get_feature_names_out := fun _ => Raise (ExternalError "no feature names");
     n_columns := fun _ => 3%nat;
     frame := unit;
     make_frame := fun _ _ => Ok tt;
     predict_first := fun m _ => score m;
     get_json := fun _ => parsed;
     render_template := fun name => Raise (ExternalError name);
     send_from_directory := fun d name => Ok {| status := 200; body := RawFile d name |};
     url_rules := rules |}.

(** ** Texts that differ from a word by letter case and surrounding white space *)

Definition small_letter (c : N) : bool := (97 <=? c)%N && (c <=? 122)%N.

(** The word with the letters picked by [mask] in upper case. *)
Fixpoint with_case (mask : list bool) (word : list N) : list N :=
  match mask, word with
  | b :: mask', c :: word' =>
      (if b && small_letter c then c - 32 else c)%N :: with_case mask' word'
  | _, _ => word
  end.

(** The white space of Unicode. *)
Definition white_space (c : N) : bool := existsb (N.eqb c) Unicode.whitespace.

(** The white space of [pre], the word in the case of [mask], the white
    space of [post]. *)
Definition padded (pre post : list N) (mask : list bool) (word : string) : string :=
  PyStr.utf8 (filter white_space pre
              ++ with_case mask (PyStr.decode (PyStr.chars word))
              ++ filter white_space post)%list.

Definition plain (c : N) : bool := (c <? 128)%N || PyStr.isspace c.

Definition no_sigma (c : N) : bool := negb (c =? 931)%N.

(** ** Numeric texts *)

(** A decimal literal as [float()] documents it: an optional sign, digits,
    a point with digits after it, and an exponent ([e] or [E], an optional
    sign, digits).  A written sign [Some true] is a minus. *)
Record literal : Type := {
  written_sign : option bool;
  whole : Decimal.uint;
  fraction : option Decimal.uint;
  exponent : option (bool * option bool * Decimal.uint)
}.

Definition digits (d : Decimal.uint) : list ascii :=
  PyStr.chars (NilEmpty.string_of_uint d).

Definition sign_chars (s : option bool) : list ascii :=
  match s with
  | None => []
  | Some false => ["+"%char]
  | Some true => ["-"%char]
  end.

Definition fraction_chars (f : option Decimal.uint) : list ascii :=
  match f with
  | None => []
  | Some d => "."%char :: digits d
  end.

Definition exponent_chars (e : option (bool * option bool * Decimal.uint)) : list ascii :=
  match e with
  | None => []
  | Some (capital, s, d) =>
      ((if capital : bool then "E"%char else "e"%char) :: sign_chars s ++ digits d)%list
  end.

(** The literal without its sign. *)
Definition unsigned_chars (n : literal) : list ascii :=
  (digits (whole n) ++ fraction_chars (fraction n) ++ exponent_chars (exponent n))%list.

Definition literal_chars (n : literal) : list ascii :=
  (sign_chars (written_sign n) ++ unsigned_chars n)%list.

(** The characters a literal is written with. *)
Definition literal_char (c : ascii) : bool :=
  PyStr.isdigit c || Ascii.eqb c "." || Ascii.eqb c "e" || Ascii.eqb c "E"
  || Ascii.eqb c "+" || Ascii.eqb c "-".

(** A blank, a tab, a line feed, a vertical tab, a form feed or a carriage
    return. *)
Definition blank (c : ascii) : bool :=
  existsb (Nat.eqb (nat_of_ascii c)) [32; 9; 10; 11; 12; 13]%nat.

(** The literal between the blanks of [pre] and of [post]. *)
Definition literal_text (pre post : list ascii) (n : literal) : string :=
  string_of_list_ascii
    (filter blank pre ++ literal_chars n ++ filter blank post)%list.

Definition is_minus (s : option bool) : bool :=
  match s with Some true => true | _ => false end.

Definition no_digit (d : Decimal.uint) : bool :=
  match d with Decimal.Nil => true | _ => false end.

Definition fraction_digits (n : literal) : Decimal.uint :=
  match fraction n with Some d => d | None => Decimal.Nil end.

(** There is a digit before or after the point, and one in the exponent
    when an exponent is written. *)
Definition well_formed (n : literal) : bool :=
  negb (no_digit (whole n) && no_digit (fraction_digits n))
  && match exponent n with
     | Some (_, _, d) => negb (no_digit d)
     | None => true
     end.

Definition exponent_value (n : literal) : Z :=
  match exponent n with
  | Some (_, s, d) => if is_minus s then - Z.of_uint d else Z.of_uint d
  | None => 0
  end.

(** The number the literal writes, [whole.fraction * 10^exponent] with its
    sign, as the nearest double. *)
Definition literal_float (n : literal) : PyFloat.float :=
  let places := Z.of_nat (Decimal.nb_digits (fraction_digits n)) in
  PyFloat.of_decimal (is_minus (written_sign n))
    (Z.of_uint (whole n) * 10 ^ places + Z.of_uint (fraction_digits n))
    (exponent_value n - places).

(** * Proofs *)

(** ** Rounding keeps the sign *)

Section RoundingSign.

Lemma shr_1_nonneg mrs : 0 <= shr_m mrs -> 0 <= shr_m (shr_1 mrs).
Proof.
  destruct mrs as [m r s]; simpl; intros H.
  destruct m as [|p|p]; [simpl; lia | | lia].
  destruct p; simpl; lia.
Qed.

Lemma iter_shr_1_nonneg p : forall mrs,
  0 <= shr_m mrs -> 0 <= shr_m (iter_pos shr_1 p mrs).
Proof.
  induction p as [p IH|p IH|]; intros mrs H; simpl.
  - apply IH, IH, shr_1_nonneg, H.
  - apply IH, IH, H.
  - apply shr_1_nonneg, H.
Qed.

Lemma shr_fexp_nonneg prec emax m e l :
  0 <= m -> 0 <= shr_m (fst (shr_fexp prec emax m e l)).
Proof.
  intros H. unfold shr_fexp, shr.
  assert (H0 : 0 <= shr_m (shr_record_of_loc m l))
    by (destruct l as [|[]]; exact H).
  destruct (fexp prec emax (Zdigits2 m + e) - e); simpl; auto.
  apply iter_shr_1_nonneg, H0.
Qed.

Lemma round_nearest_even_nonneg m l : 0 <= m -> 0 <= round_nearest_even m l.
Proof.
  intros H. destruct l as [|[]]; simpl; try lia.
  destruct (Z.even m); lia.
Qed.

Lemma binary_round_aux_sign prec emax s m e l :
  0 <= m -> signed_as s (binary_round_aux prec emax s m e l).
Proof.
  intros H. unfold binary_round_aux.
  pose proof (shr_fexp_nonneg prec emax m e l H) as H1.
  destruct (shr_fexp prec emax m e l) as [mrs' e']; simpl in H1.
  pose proof (round_nearest_even_nonneg _ (loc_of_shr_record mrs') H1) as H2.
  pose proof (shr_fexp_nonneg prec emax _ e' loc_Exact H2) as H3.
  destruct (shr_fexp prec emax _ e' loc_Exact) as [mrs'' e'']; simpl in H3.
  destruct (shr_m mrs'') as [|p|p]; [constructor | | lia].
  destruct (e'' <=? emax - prec); constructor.
Qed.

End RoundingSign.

(** ** The fallback scores *)

Lemma round_half_even_nonneg n d : 0 <= n -> 0 < d -> 0 <= PyFloat.round_half_even n d.
Proof.
  intros Hn Hd. unfold PyFloat.round_half_even.
  assert (0 <= n / d) by (apply Z.div_pos; lia).
  destruct (2 * (n mod d) ?= d); [destruct (Z.even (n / d))| |]; lia.
Qed.

Lemma hundredths_nonneg m e : 0 <= PyFloat.hundredths m e.
Proof.
  unfold PyFloat.hundredths. destruct e as [|p|p].
  - lia.
  - assert (0 <= 2 ^ Z.pos p) by (apply Z.pow_nonneg; lia). nia.
  - apply round_half_even_nonneg; [lia|].
    rewrite Z.pow_pos_fold. apply Z.pow_pos_nonneg; lia.
Qed.

Lemma nearest_of_ratio_sign s n d : signed_as s (PyFloat.nearest_of_ratio s n d).
Proof.
  unfold PyFloat.nearest_of_ratio.
  destruct n as [|pn|pn]; try constructor.
  destruct d as [|pd|pd]; try constructor.
  unfold SFdiv, SFdiv_core_binary.
  set (s' := _ - _ - _).
  set (m' := match s' with Z.pos _ => _ | _ => _ end).
  assert (Hm' : 0 <= m').
  { subst m'. destruct s'; try lia. apply Z.shiftl_nonneg. lia. }
  pose proof (Z.div_pos m' (Z.pos pd) Hm' eq_refl) as Hq.
  unfold Z.div in Hq.
  destruct (Z.div_eucl m' (Z.pos pd)) as [q r]; simpl in Hq.
  replace (xorb s false) with s by (destruct s; reflexivity).
  apply binary_round_aux_sign, Hq.
Qed.

Lemma round2_positive x :
  PyFloat.ltb PyFloat.pos_zero x = true ->
  PyFloat.leb PyFloat.pos_zero (PyFloat.round2 x) = true.
Proof.
  destruct x as [s|s| |s m e]; try discriminate.
  - destruct s; [discriminate | reflexivity].
  - destruct s; [discriminate | intros _].
    unfold PyFloat.round2.
    destruct (nearest_of_ratio_sign false (PyFloat.hundredths m e) 100); reflexivity.
Qed.

Lemma score_nonneg x : nonneg (round_2 (max_0 x)) = true.
Proof.
  unfold max_0. destruct (PyFloat.ltb PyFloat.pos_zero x) eqn:Hx.
  - apply round2_positive, Hx.
  - reflexivity.
Qed.

(** *** The sign of a zero does not reach the scores *)

Lemma max_0_sub_zero_left s s' y :
  max_0 (PyFloat.sub (S754_zero s) y) = max_0 (PyFloat.sub (S754_zero s') y).
Proof. destruct y as [sy|sy| |sy my ey], s, s'; try destruct sy; reflexivity. Qed.

Lemma max_0_sub_zero_right x s s' :
  max_0 (PyFloat.sub x (S754_zero s)) = max_0 (PyFloat.sub x (S754_zero s')).
Proof. destruct x as [sx|sx| |sx mx ex], s, s'; try destruct sx; reflexivity. Qed.

Lemma resale_formula_same p p' a a' :
  same_number p p' -> same_number a a' -> resale_formula p a = resale_formula p' a'.
Proof.
  intros Hp Ha. unfold resale_formula. f_equal.
  transitivity (max_0 (PyFloat.sub (PyFloat.mul p' PyFloat.lit_0_2)
                                   (PyFloat.mul a PyFloat.lit_0_1))).
  - destruct Hp as [x|s s']; [reflexivity|]. apply max_0_sub_zero_left.
  - destruct Ha as [x|s s']; [reflexivity|]. apply max_0_sub_zero_right.
Qed.

Lemma recycle_formula_same w w' :
  same_number w w' -> recycle_formula w = recycle_formula w'.
Proof. intros [x|s s']; [reflexivity|]. destruct s, s'; reflexivity. Qed.

Lemma reuse_formula_same a a' :
  same_number a a' -> reuse_formula a = reuse_formula a'.
Proof. intros [x|s s']; reflexivity. Qed.

Lemma number_read_coerced v x :
  number_read v = Some x ->
  exists x', py_float (py_or v (VInt 0)) = Ok x' /\ same_number x x'.
Proof.
  destruct v as [|b|n|f|s|l|d]; simpl; try discriminate.
  - intros [= <-]. eexists; split; [reflexivity | constructor].
  - unfold py_or; simpl. destruct (Z.eqb_spec n 0) as [->|Hn]; simpl.
    + intros [= <-]. eexists; split; [reflexivity | constructor].
    + destruct (PyFloat.of_int n) as [f|e]; [|discriminate].
      intros [= <-]. eexists; split; [reflexivity | constructor].
  - intros [= <-]. destruct f as [s|s| |s m e];
      eexists; (split; [reflexivity | constructor]).
Qed.

Section FallbackMode.
Variable W : World.

Lemma unloaded_is_fallback (g : Bundle W) df :
  models_loaded g = false -> predict_all_targets W g df = fallback df.
Proof. intros H. unfold predict_all_targets. rewrite H. reflexivity. Qed.

Lemma not_model_backed_is_fallback (g : Bundle W) df :
  model_backed W g = false -> predict_all_targets W g df = fallback df.
Proof.
  unfold model_backed, predict_all_targets.
  destruct (models_loaded g), (preprocessor g), (models g); simpl;
    (discriminate || reflexivity).
Qed.

Lemma model_backed_is_pipeline (g : Bundle W) :
  model_backed W g = true ->
  exists p, preprocessor g = Some p
            /\ forall df, predict_all_targets W g df = model_pipeline W p (models g) df.
Proof.
  unfold model_backed, predict_all_targets.
  destruct (models_loaded g), (preprocessor g) as [p|], (models g); simpl;
    try discriminate.
  intros _. exists p. split; reflexivity.
Qed.

Lemma fallback_formulas df p a w :
  number_read (Original_Price df) = Some p ->
  number_read (Age_Months df) = Some a ->
  number_read (Weight_Kg df) = Some w ->
  fallback df = Ok [ ("Resale_Value", resale_formula p a);
                     ("Recycle_Value", recycle_formula w);
                     ("Reuse_Score", reuse_formula a) ].
Proof.
  intros Hp Ha Hw.
  destruct (number_read_coerced _ _ Hp) as (p' & Ep & Sp).
  destruct (number_read_coerced _ _ Ha) as (a' & Ea & Sa).
  destruct (number_read_coerced _ _ Hw) as (w' & Ew & Sw).
  unfold fallback. rewrite Ep, Ew, Ea. simpl.
  rewrite (resale_formula_same _ _ _ _ Sp Sa), (recycle_formula_same _ _ Sw),
          (reuse_formula_same _ _ Sa).
  reflexivity.
Qed.

End FallbackMode.

(** ** Decimal numerals are read back as their value *)

Section Numerals.
Import PyStr.

Lemma isdigit_cases (P : ascii -> Prop) :
  P "0"%char -> P "1"%char -> P "2"%char -> P "3"%char -> P "4"%char ->
  P "5"%char -> P "6"%char -> P "7"%char -> P "8"%char -> P "9"%char ->
  forall c, isdigit c = true -> P c.
Proof.
  intros H0 H1 H2 H3 H4 H5 H6 H7 H8 H9 c.
  destruct c as [[|] [|] [|] [|] [|] [|] [|] [|]];
    intros Hc; try discriminate Hc; assumption.
Qed.

Lemma numeral_digits d : forallb isdigit (chars (NilEmpty.string_of_uint d)) = true.
Proof. induction d; simpl; auto. Qed.

Lemma numeral_value_acc d : forall acc,
  fold_left digit_step (chars (NilEmpty.string_of_uint d)) (Z.pos acc)
  = Z.pos (Pos.of_uint_acc d acc).
Proof.
  induction d; intros acc;
    cbn [NilEmpty.string_of_uint chars list_ascii_of_string fold_left Pos.of_uint_acc];
    try reflexivity;
    rewrite <- IHd; f_equal; unfold digit_step;
    match goal with
    | |- context [digit_value ?c] =>
        let v := eval vm_compute in (digit_value c) in change (digit_value c) with v
    end; lia.
Qed.

Lemma numeral_value d :
  digits_value (chars (NilEmpty.string_of_uint d)) = Z.of_N (Pos.of_uint d).
Proof.
  unfold digits_value.
  induction d;
    cbn [NilEmpty.string_of_uint chars list_ascii_of_string fold_left Pos.of_uint];
    try reflexivity; try exact IHd;
    apply (numeral_value_acc d).
Qed.

Lemma drop_underscores_digits cs : forall b,
  forallb isdigit cs = true -> drop_underscores b cs = Some cs.
Proof.
  induction cs as [|c cs IH]; intros b H; [reflexivity|].
  simpl in H. apply andb_prop in H as [Hc Hcs].
  cbn [drop_underscores].
  replace (Ascii.eqb c "_") with false
    by (revert c Hc; apply isdigit_cases; reflexivity).
  rewrite (IH _ Hcs). reflexivity.
Qed.

Lemma drop_while_digit {A : Type} (p : A -> bool) c cs :
  p c = false -> drop_while p (c :: cs) = c :: cs.
Proof. intros H. simpl. rewrite H. reflexivity. Qed.

Lemma isspace_c_digit c : isdigit c = true -> isspace_c c = false.
Proof. revert c. apply isdigit_cases; reflexivity. Qed.

Lemma strip_digits cs :
  forallb isdigit cs = true -> strip_with isspace_c cs = cs.
Proof.
  intros H. unfold strip_with.
  assert (Hd : forall l, forallb isdigit l = true -> drop_while isspace_c l = l).
  { intros [|c l] Hl; [reflexivity|]. simpl in Hl. apply andb_prop in Hl as [Hc _].
    apply drop_while_digit, isspace_c_digit, Hc. }
  rewrite (Hd cs H), Hd, rev_involutive; [reflexivity|].
  apply forallb_forall. intros c Hc. apply In_rev in Hc.
  exact (proj1 (forallb_forall _ _) H c Hc).
Qed.

Lemma span_digits_all cs :
  forallb isdigit cs = true -> span_digits cs = (cs, []).
Proof.
  induction cs as [|c cs IH]; intros H; [reflexivity|].
  simpl in H. apply andb_prop in H as [Hc Hcs].
  simpl. rewrite Hc, (IH Hcs). reflexivity.
Qed.

Lemma of_decimal_integer m :
  0 <= m -> PyFloat.of_decimal false m 0 = PyFloat.nearest_of_Z m.
Proof.
  intros H. unfold PyFloat.of_decimal, PyFloat.nearest_of_Z, binary_normalize.
  rewrite Z.pow_0_r, Z.mul_1_r. destruct m; try reflexivity. exfalso; lia.
Qed.

Lemma digits_value_nonneg cs : forallb isdigit cs = true -> 0 <= digits_value cs.
Proof.
  unfold digits_value.
  assert (G : forall l acc, forallb isdigit l = true -> 0 <= acc ->
                            0 <= fold_left digit_step l acc).
  { induction l as [|c l IH]; intros acc Hl Hacc; [exact Hacc|].
    simpl in Hl. apply andb_prop in Hl as [Hc Hl].
    simpl. apply IH; [exact Hl|].
    unfold digit_step.
    apply (isdigit_cases (fun c => 0 <= 10 * acc + digit_value c));
      try exact Hc;
      match goal with
      | |- context [digit_value ?d] =>
          let v := eval vm_compute in (digit_value d) in change (digit_value d) with v
      end; lia. }
  intros H. apply G; [exact H | lia].
Qed.

Lemma digit_is_ascii c : isdigit c = true -> (byte c <? 128)%N = true.
Proof. revert c. apply isdigit_cases; reflexivity. Qed.

Lemma digits_are_ascii cs : forallb isdigit cs = true -> is_ascii cs = true.
Proof.
  intros H. apply forallb_forall. intros c Hc.
  apply digit_is_ascii. exact (proj1 (forallb_forall _ _) H c Hc).
Qed.

Lemma number_text_ascii cs :
  is_ascii cs = true -> number_text (string_of_list_ascii cs) = cs.
Proof.
  intros H. unfold number_text, chars.
  rewrite list_ascii_of_string_of_list_ascii, H. reflexivity.
Qed.

(** A non-empty run of digits is the float nearest to its value. *)
Lemma float_of_digits c cs :
  forallb isdigit (c :: cs) = true ->
  float_of_string (string_of_list_ascii (c :: cs))
  = Some (PyFloat.nearest_of_Z (digits_value (c :: cs))).
Proof.
  intros H. unfold float_of_string.
  rewrite (number_text_ascii _ (digits_are_ascii _ H)). unfold float_of_ascii.
  rewrite (drop_underscores_digits _ _ H), (strip_digits _ H).
  assert (Hc : isdigit c = true) by (simpl in H; apply andb_prop in H; tauto).
  replace (split_sign (c :: cs)) with (false, c :: cs)
    by (clear H; revert c Hc; apply isdigit_cases; reflexivity).
  replace (matches_ci (chars "inf") (c :: cs)) with false
    by (clear H; revert c Hc; apply isdigit_cases; reflexivity).
  replace (matches_ci (chars "infinity") (c :: cs)) with false
    by (clear H; revert c Hc; apply isdigit_cases; reflexivity).
  replace (matches_ci (chars "nan") (c :: cs)) with false
    by (clear H; revert c Hc; apply isdigit_cases; reflexivity).
  cbn [orb]. unfold parse_decimal.
  rewrite (span_digits_all _ H), app_nil_r.
  cbn [parse_exponent List.length Z.of_nat Z.sub Z.opp Z.add].
  rewrite of_decimal_integer by (apply digits_value_nonneg, H).
  reflexivity.
Qed.

Lemma float_of_numeral d :
  d <> Decimal.Nil ->
  float_of_string (NilEmpty.string_of_uint d)
  = Some (PyFloat.nearest_of_Z (digits_value (chars (NilEmpty.string_of_uint d)))).
Proof.
  intros Hd. pose proof (numeral_digits d) as H. unfold chars in *.
  rewrite <- (string_of_list_ascii_of_string (NilEmpty.string_of_uint d)) at 1.
  destruct (list_ascii_of_string (NilEmpty.string_of_uint d)) as [|c cs] eqn:E.
  - destruct d; try discriminate E. congruence.
  - apply float_of_digits, H.
Qed.

Lemma float_of_decimal n :
  float_of_string (decimal n) = Some (PyFloat.nearest_of_Z (Z.of_N n)).
Proof.
  unfold decimal, NilZero.string_of_uint.
  pose proof (numeral_value (N.to_uint n)) as Hv.
  change (Pos.of_uint (N.to_uint n)) with (N.of_uint (N.to_uint n)) in Hv.
  rewrite DecimalN.Unsigned.of_to in Hv.
  destruct (N.to_uint n) eqn:E;
    try (rewrite <- Hv; apply float_of_numeral; discriminate).
  simpl in Hv. rewrite <- Hv. reflexivity.
Qed.

Lemma decimal_truthy n : truthy (VStr (decimal n)) = true.
Proof.
  unfold decimal, NilZero.string_of_uint. destruct (N.to_uint n); reflexivity.
Qed.

End Numerals.

(** ** Texts: code points, case and white space *)

Section Texts.
Import PyStr.

Lemma drop_while_all {A : Type} (p : A -> bool) cs :
  forallb p cs = true -> drop_while p cs = [].
Proof.
  induction cs as [|c cs IH]; intros H; [reflexivity|].
  simpl in H. apply andb_prop in H as [Hc Hcs].
  cbn [drop_while]. rewrite Hc. apply IH, Hcs.
Qed.

Lemma byte_of_N c : (c < 256)%N -> byte (ascii_of_N c) = c.
Proof. apply N_ascii_embedding. Qed.

Lemma encode_one_ascii c : (c <? 128)%N = true -> encode_one c = [ascii_of_N c].
Proof. intros H. unfold encode_one. rewrite H. reflexivity. Qed.

Lemma decode_ascii_head a bs :
  (byte a <? 128)%N = true -> decode (a :: bs) = byte a :: decode bs.
Proof. intros H. cbn [decode]. rewrite H. reflexivity. Qed.

Lemma isspace_cases (P : N -> Prop) :
  Forall P Unicode.whitespace -> forall c, isspace c = true -> P c.
Proof.
  intros H c Hc. unfold isspace in Hc.
  apply existsb_exists in Hc as (x & Hx & E). apply N.eqb_eq in E. subst x.
  exact (proj1 (Forall_forall _ _) H c Hx).
Qed.

Lemma decode_encode_one c bs :
  plain c = true -> decode (encode_one c ++ bs) = c :: decode bs.
Proof.
  unfold plain. destruct (c <? 128)%N eqn:Ha; cbn [orb].
  - intros _. rewrite (encode_one_ascii c Ha). cbn [app].
    apply N.ltb_lt in Ha.
    rewrite decode_ascii_head; rewrite byte_of_N by lia;
      [reflexivity | apply N.ltb_lt; exact Ha].
  - revert c Ha. intros c _. revert c.
    apply isspace_cases. repeat constructor.
Qed.

Lemma decode_encode l : forall bs,
  forallb plain l = true -> decode (encode l ++ bs) = (l ++ decode bs)%list.
Proof.
  induction l as [|c l IH]; intros bs H; [reflexivity|].
  cbn [forallb] in H. apply andb_prop in H as [Hc Hl].
  cbn [encode flat_map]. rewrite <- app_assoc.
  rewrite (decode_encode_one c _ Hc). fold (encode l). rewrite (IH _ Hl).
  reflexivity.
Qed.

Lemma chars_utf8 l : chars (utf8 l) = encode l.
Proof. apply list_ascii_of_string_of_list_ascii. Qed.

Lemma decode_utf8 l : forallb plain l = true -> decode (chars (utf8 l)) = l.
Proof.
  intros H. rewrite chars_utf8, <- (app_nil_r (encode l)).
  rewrite (decode_encode l [] H). apply app_nil_r.
Qed.


(** *** Lower case *)

Lemma lower_ascii_facts a :
  (byte a <? 128)%N = true ->
  (byte a =? 931)%N = false
  /\ lower_one (byte a) = [byte (to_lower_c a)]
  /\ encode_one (byte (to_lower_c a)) = [to_lower_c a].
Proof.
  destruct a as [[|] [|] [|] [|] [|] [|] [|] [|]]; intros H;
    try discriminate H; repeat split.
Qed.

(** An ASCII text is lowered byte by byte, the letters A to Z only. *)
Lemma lower_ascii_bytes bs : forall before,
  is_ascii bs = true -> encode (lower_from before (decode bs)) = map to_lower_c bs.
Proof.
  induction bs as [|a bs IH]; intros before H; [reflexivity|].
  cbn [is_ascii forallb] in H. apply andb_prop in H as [Ha Hbs].
  destruct (lower_ascii_facts a Ha) as (Hs & Hl & He).
  rewrite (decode_ascii_head a bs Ha). cbn [lower_from]. rewrite Hs, Hl.
  cbn [app encode flat_map map]. rewrite He. cbn [app]. f_equal.
  apply IH, Hbs.
Qed.

Lemma lower_ascii s :
  is_ascii (chars s) = true ->
  lower s = string_of_list_ascii (map to_lower_c (chars s)).
Proof.
  intros H. unfold lower, utf8. rewrite (lower_ascii_bytes _ [] H). reflexivity.
Qed.

Lemma lower_without_sigma l : forall before,
  forallb no_sigma l = true -> lower_from before l = flat_map lower_one l.
Proof.
  induction l as [|c l IH]; intros before H; [reflexivity|].
  cbn [forallb] in H. apply andb_prop in H as [Hc Hl].
  unfold no_sigma in Hc. apply negb_true_iff in Hc.
  cbn [lower_from flat_map]. rewrite Hc, (IH _ Hl). reflexivity.
Qed.

Lemma lower_spaces l :
  forallb isspace l = true ->
  forallb no_sigma l = true /\ flat_map lower_one l = l.
Proof.
  induction l as [|c l IH]; intros H; [split; reflexivity|].
  cbn [forallb] in H. apply andb_prop in H as [Hc Hl].
  destruct (IH Hl) as [IH1 IH2]. cbn [forallb flat_map]. rewrite IH1, IH2.
  revert c Hc. apply isspace_cases. repeat constructor.
Qed.

Lemma small_letter_cases (P : N -> Prop) :
  Forall P [97; 98; 99; 100; 101; 102; 103; 104; 105; 106; 107; 108; 109; 110; 111;
            112; 113; 114; 115; 116; 117; 118; 119; 120; 121; 122]%N ->
  forall c, small_letter c = true -> P c.
Proof.
  intros H c Hc. apply (proj1 (Forall_forall _ _) H).
  unfold small_letter in Hc. apply andb_prop in Hc as [H1 H2].
  apply N.leb_le in H1, H2. cbn [In]. lia.
Qed.

Lemma lower_letters word : forall mask,
  forallb small_letter word = true ->
  forallb no_sigma (with_case mask word) = true
  /\ flat_map lower_one (with_case mask word) = word.
Proof.
  induction word as [|c word IH]; intros mask H.
  - destruct mask; split; reflexivity.
  - cbn [forallb] in H. apply andb_prop in H as [Hc Hw].
    assert (E : (no_sigma c = true /\ lower_one c = [c])
                /\ (no_sigma (c - 32) = true /\ lower_one (c - 32) = [c])).
    { revert c Hc. apply small_letter_cases. repeat constructor. }
    destruct E as [[E1 E2] [E3 E4]].
    destruct mask as [|b mask].
    + destruct (IH [] Hw) as [IH1 IH2].
      assert (W : with_case [] word = word) by (destruct word; reflexivity).
      rewrite W in IH1, IH2. cbn [with_case forallb flat_map].
      rewrite E1, E2, IH1, IH2. split; reflexivity.
    + destruct (IH mask Hw) as [IH1 IH2].
      cbn [with_case]. rewrite Hc.
      destruct b; cbn [andb forallb flat_map]; rewrite IH1, IH2.
      * rewrite E3, E4. split; reflexivity.
      * rewrite E1, E2. split; reflexivity.
Qed.

(** *** Surrounding white space *)

Lemma drop_while_spaces {A : Type} (p : A -> bool) ws l :
  forallb p ws = true -> drop_while p (ws ++ l) = drop_while p l.
Proof.
  induction ws as [|c ws IH]; intros H; [reflexivity|].
  cbn [forallb] in H. apply andb_prop in H as [Hc Hw].
  cbn [app drop_while]. rewrite Hc. apply IH, Hw.
Qed.

Lemma drop_while_none {A : Type} (p : A -> bool) l :
  forallb (fun c => negb (p c)) l = true -> drop_while p l = l.
Proof.
  destruct l as [|c l]; [reflexivity|]. cbn [forallb drop_while].
  intros H. apply andb_prop in H as [Hc _]. apply negb_true_iff in Hc.
  rewrite Hc. reflexivity.
Qed.

Lemma forallb_rev {A : Type} (p : A -> bool) l :
  forallb p l = true -> forallb p (rev l) = true.
Proof.
  intros H. apply forallb_forall. intros c Hc. apply In_rev in Hc.
  exact (proj1 (forallb_forall _ _) H c Hc).
Qed.

Lemma strip_with_padding {A : Type} (p : A -> bool) ws1 w ws2 :
  forallb p ws1 = true -> forallb p ws2 = true ->
  forallb (fun c => negb (p c)) w = true ->
  strip_with p (ws1 ++ w ++ ws2) = w.
Proof.
  intros H1 H2 Hw. unfold strip_with.
  rewrite (drop_while_spaces p ws1 _ H1).
  destruct w as [|c w].
  - cbn [app]. rewrite (drop_while_all p ws2 H2). reflexivity.
  - assert (Hc : p c = false).
    { cbn [forallb] in Hw. apply andb_prop in Hw as [Hc _].
      apply negb_true_iff, Hc. }
    cbn [app drop_while]. rewrite Hc.
    change (c :: w ++ ws2)%list with ((c :: w) ++ ws2)%list.
    rewrite rev_app_distr, (drop_while_spaces p _ _ (forallb_rev p _ H2)).
    rewrite (drop_while_none p _ (forallb_rev _ _ Hw)). apply rev_involutive.
Qed.

Lemma small_letter_facts w :
  forallb small_letter w = true ->
  forallb plain w = true /\ forallb (fun c => negb (isspace c)) w = true.
Proof.
  induction w as [|c w IH]; intros H; [split; reflexivity|].
  cbn [forallb] in H. apply andb_prop in H as [Hc Hw].
  destruct (IH Hw) as [IH1 IH2]. cbn [forallb]. rewrite IH1, IH2.
  revert c Hc. apply small_letter_cases. repeat constructor.
Qed.

Lemma with_case_plain w : forall mask,
  forallb small_letter w = true -> forallb plain (with_case mask w) = true.
Proof.
  induction w as [|c w IH]; intros mask H; [destruct mask; reflexivity|].
  cbn [forallb] in H. apply andb_prop in H as [Hc Hw].
  assert (E : plain c = true /\ plain (c - 32) = true).
  { revert c Hc. apply small_letter_cases. repeat constructor. }
  destruct mask as [|b mask].
  - cbn [with_case forallb]. rewrite (proj1 E).
    apply (proj1 (small_letter_facts w Hw)).
  - cbn [with_case forallb]. rewrite (IH mask Hw), Hc.
    destruct b; cbn [andb]; [rewrite (proj2 E) | rewrite (proj1 E)]; reflexivity.
Qed.

Lemma spaces_plain ws : forallb isspace ws = true -> forallb plain ws = true.
Proof.
  intros H. apply forallb_forall. intros c Hc. unfold plain.
  rewrite (proj1 (forallb_forall _ _) H c Hc). apply orb_true_r.
Qed.

Lemma filter_all {A : Type} (p : A -> bool) l : forallb p (filter p l) = true.
Proof.
  apply forallb_forall. intros c Hc. apply filter_In in Hc. apply Hc.
Qed.

Lemma forallb_app3 {A : Type} (p : A -> bool) l1 l2 l3 :
  forallb p l1 = true -> forallb p l2 = true -> forallb p l3 = true ->
  forallb p (l1 ++ l2 ++ l3) = true.
Proof. intros H1 H2 H3. rewrite !forallb_app, H1, H2, H3. reflexivity. Qed.

(** Lower-casing and stripping a word written in any letter case between
    any white space gives the word back. *)
Lemma strip_lower_padded ws1 ws2 mask w :
  forallb isspace ws1 = true -> forallb isspace ws2 = true ->
  forallb small_letter w = true ->
  strip (lower (utf8 (ws1 ++ with_case mask w ++ ws2))) = utf8 w.
Proof.
  intros H1 H2 Hw.
  destruct (lower_spaces ws1 H1) as [S1 L1].
  destruct (lower_spaces ws2 H2) as [S2 L2].
  destruct (lower_letters w mask Hw) as [Sw Lw].
  destruct (small_letter_facts w Hw) as [Pw Nw].
  unfold lower. rewrite decode_utf8
    by (apply forallb_app3; [apply spaces_plain, H1 | apply with_case_plain, Hw
                            | apply spaces_plain, H2]).
  rewrite lower_without_sigma by (apply forallb_app3; assumption).
  rewrite !flat_map_app, L1, L2, Lw.
  unfold strip.
  rewrite decode_utf8
    by (apply forallb_app3; [apply spaces_plain, H1 | exact Pw | apply spaces_plain, H2]).
  rewrite (strip_with_padding isspace ws1 w ws2 H1 H2 Nw). reflexivity.
Qed.

End Texts.

(** ** Literals read by [float()] *)

Section Literals.
Import PyStr.

Lemma literal_char_facts c :
  literal_char c || isspace_c c = true ->
  (byte c <? 128)%N = true /\ Ascii.eqb c "_" = false.
Proof.
  destruct c as [[|] [|] [|] [|] [|] [|] [|] [|]]; intros H;
    try discriminate H; split; reflexivity.
Qed.

Lemma literal_char_no_space c : literal_char c = true -> negb (isspace_c c) = true.
Proof.
  destruct c as [[|] [|] [|] [|] [|] [|] [|] [|]]; intros H;
    try discriminate H; reflexivity.
Qed.

Lemma blank_isspace_c c : blank c = true -> isspace_c c = true.
Proof.
  destruct c as [[|] [|] [|] [|] [|] [|] [|] [|]]; intros H;
    try discriminate H; reflexivity.
Qed.

Lemma digit_literal_char c : isdigit c = true -> literal_char c = true.
Proof. intros H. unfold literal_char. rewrite H. reflexivity. Qed.

Lemma digits_isdigit d : forallb isdigit (digits d) = true.
Proof. apply numeral_digits. Qed.

Lemma forallb_impl {A : Type} (p q : A -> bool) l :
  (forall c, p c = true -> q c = true) -> forallb p l = true -> forallb q l = true.
Proof.
  intros I H. apply forallb_forall. intros c Hc.
  apply I, (proj1 (forallb_forall _ _) H c Hc).
Qed.

Lemma sign_chars_literal s : forallb literal_char (sign_chars s) = true.
Proof. destruct s as [[|]|]; reflexivity. Qed.

Lemma digits_literal d : forallb literal_char (digits d) = true.
Proof. exact (forallb_impl _ _ _ digit_literal_char (digits_isdigit d)). Qed.

Lemma literal_chars_literal n : forallb literal_char (literal_chars n) = true.
Proof.
  unfold literal_chars, unsigned_chars. rewrite !forallb_app, sign_chars_literal, digits_literal.
  cbn [andb]. apply andb_true_intro. split.
  - destruct (fraction n); [|reflexivity]. cbn [fraction_chars forallb].
    rewrite digits_literal. reflexivity.
  - destruct (exponent n) as [[[cap s] d]|]; [|reflexivity].
    cbn [exponent_chars forallb]. rewrite forallb_app, sign_chars_literal, digits_literal.
    destruct cap; reflexivity.
Qed.

Lemma drop_underscores_none cs : forall b,
  forallb (fun c => negb (Ascii.eqb c "_")) cs = true -> drop_underscores b cs = Some cs.
Proof.
  induction cs as [|c cs IH]; intros b H; [reflexivity|].
  cbn [forallb] in H. apply andb_prop in H as [Hc Hcs].
  apply negb_true_iff in Hc. cbn [drop_underscores]. rewrite Hc, (IH _ Hcs).
  reflexivity.
Qed.

(** The sign *)

Lemma split_sign_written s cs :
  match cs with
  | c :: _ => Ascii.eqb c "-" || Ascii.eqb c "+"
  | [] => false
  end = false ->
  split_sign (sign_chars s ++ cs) = (is_minus s, cs).
Proof.
  destruct s as [[|]|]; try reflexivity.
  intros H. destruct cs as [|c cs]; [reflexivity|].
  apply orb_false_elim in H as [H1 H2].
  cbn [sign_chars app split_sign is_minus]. rewrite H1, H2. reflexivity.
Qed.

Lemma digits_head d cs :
  match (digits d ++ cs)%list with
  | c :: _ => Ascii.eqb c "-" || Ascii.eqb c "+"
  | [] => false
  end
  = match d with
    | Decimal.Nil => match cs with
                     | c :: _ => Ascii.eqb c "-" || Ascii.eqb c "+"
                     | [] => false
                     end
    | _ => false
    end.
Proof. destruct d; reflexivity. Qed.

Lemma unsigned_head n :
  match unsigned_chars n with
  | c :: _ => Ascii.eqb c "-" || Ascii.eqb c "+"
  | [] => false
  end = false.
Proof.
  unfold unsigned_chars. rewrite digits_head. destruct (whole n); try reflexivity.
  destruct (fraction n); [reflexivity|].
  destruct (exponent n) as [[[[|] s] d]|]; reflexivity.
Qed.

Lemma unsigned_no_word word n :
  match word with
  | w :: _ => isdigit w || Ascii.eqb w "." || ascii_eqb_ci w "e"
  | [] => false
  end = false ->
  word <> [] ->
  matches_ci word (unsigned_chars n) = false.
Proof.
  destruct word as [|w word]; [congruence|]. intros H _.
  apply orb_false_elim in H as [H He]. apply orb_false_elim in H as [Hd Hp].
  unfold unsigned_chars.
  assert (G : forall c cs, isdigit c = true -> matches_ci (w :: word) (c :: cs) = false).
  { intros c cs Hc. cbn [matches_ci].
    replace (ascii_eqb_ci w c) with false; [reflexivity|].
    revert c Hc. apply isdigit_cases; symmetry;
      destruct w as [[|] [|] [|] [|] [|] [|] [|] [|]];
      try reflexivity; discriminate Hd. }
  destruct (whole n); try (apply G; reflexivity).
  cbn [digits NilEmpty.string_of_uint chars list_ascii_of_string app].
  destruct (fraction n).
  - cbn [fraction_chars app matches_ci].
    replace (ascii_eqb_ci w ".") with false; [reflexivity|].
    destruct w as [[|] [|] [|] [|] [|] [|] [|] [|]];
      try reflexivity; discriminate Hp.
  - cbn [fraction_chars app].
    destruct (exponent n) as [[[cap s] d]|]; [|reflexivity].
    cbn [exponent_chars matches_ci].
    replace (ascii_eqb_ci w (if cap then "E"%char else "e"%char)) with false;
      [reflexivity|].
    destruct cap; destruct w as [[|] [|] [|] [|] [|] [|] [|] [|]];
      try reflexivity; discriminate He.
Qed.

(** Digits *)

Lemma span_digits_app ds rest :
  forallb isdigit ds = true ->
  match rest with c :: _ => isdigit c | [] => false end = false ->
  span_digits (ds ++ rest) = (ds, rest).
Proof.
  intros H R. induction ds as [|c ds IH].
  - destruct rest as [|c rest]; [reflexivity|]. cbn [app span_digits]. rewrite R.
    reflexivity.
  - cbn [forallb] in H. apply andb_prop in H as [Hc Hds].
    cbn [app span_digits]. rewrite Hc, (IH Hds). reflexivity.
Qed.

Lemma digit_step_shift l : forall acc,
  fold_left digit_step l acc
  = acc * 10 ^ Z.of_nat (List.length l) + fold_left digit_step l 0.
Proof.
  induction l as [|c l IH]; intros acc.
  - cbn [fold_left List.length Z.of_nat]. rewrite Z.pow_0_r. lia.
  - cbn [fold_left]. rewrite (IH (digit_step acc c)), (IH (digit_step 0 c)).
    change (List.length (c :: l)) with (S (List.length l)).
    rewrite Nat2Z.inj_succ, Z.pow_succ_r by lia.
    unfold digit_step. lia.
Qed.

Lemma digits_value_app l1 l2 :
  digits_value (l1 ++ l2)
  = digits_value l1 * 10 ^ Z.of_nat (List.length l2) + digits_value l2.
Proof.
  unfold digits_value. rewrite fold_left_app. apply digit_step_shift.
Qed.

Lemma digits_length d : List.length (digits d) = Decimal.nb_digits d.
Proof.
  unfold digits, chars.
  induction d; cbn [NilEmpty.string_of_uint list_ascii_of_string List.length Decimal.nb_digits];
    congruence.
Qed.

Lemma digits_value_of d : digits_value (digits d) = Z.of_uint d.
Proof. apply numeral_value. Qed.

Lemma digits_nil d : digits d = [] -> d = Decimal.Nil.
Proof. destruct d; (reflexivity || discriminate). Qed.

(** The exponent *)

Lemma exponent_head e :
  match exponent_chars e with c :: _ => isdigit c || Ascii.eqb c "." | [] => false end
  = false.
Proof. destruct e as [[[[|] s] d]|]; reflexivity. Qed.

Lemma parse_exponent_written n :
  parse_exponent (exponent_chars (exponent n))
  = match exponent n with
    | Some (_, _, d) => if no_digit d then None else Some (exponent_value n)
    | None => Some 0
    end.
Proof.
  unfold exponent_value. destruct (exponent n) as [[[cap s] d]|]; [|reflexivity].
  cbn [exponent_chars parse_exponent].
  replace (ascii_eqb_ci (if cap then "E"%char else "e"%char) "e") with true
    by (destruct cap; reflexivity).
  rewrite split_sign_written by (rewrite <- (app_nil_r (digits d)), digits_head;
                                 destruct d; reflexivity).
  rewrite (span_digits_all _ (digits_isdigit d)), digits_value_of.
  destruct d; reflexivity.
Qed.

Lemma parse_decimal_unsigned neg n :
  parse_decimal neg (unsigned_chars n)
  = if well_formed n
    then Some (PyFloat.of_decimal neg
                 (Z.of_uint (whole n)
                    * 10 ^ Z.of_nat (Decimal.nb_digits (fraction_digits n))
                  + Z.of_uint (fraction_digits n))
                 (exponent_value n - Z.of_nat (Decimal.nb_digits (fraction_digits n))))
    else None.
Proof.
  unfold parse_decimal, unsigned_chars, well_formed, fraction_digits.
  assert (F : span_digits (digits (whole n) ++ fraction_chars (fraction n)
                           ++ exponent_chars (exponent n))
              = (digits (whole n),
                 (fraction_chars (fraction n) ++ exponent_chars (exponent n))%list)).
  { apply span_digits_app; [apply digits_isdigit|].
    destruct (fraction n); [reflexivity|].
    cbn [fraction_chars app]. pose proof (exponent_head (exponent n)) as E.
    destruct (exponent_chars (exponent n)); [reflexivity|].
    apply orb_false_elim in E. apply E. }
  rewrite F. clear F.
  assert (G : match (fraction_chars (fraction n) ++ exponent_chars (exponent n))%list with
              | c :: rest => if Ascii.eqb c "." then span_digits rest
                             else ([], (fraction_chars (fraction n)
                                        ++ exponent_chars (exponent n))%list)
              | [] => ([], [])
              end
              = (digits (match fraction n with Some d => d | None => Decimal.Nil end),
                 exponent_chars (exponent n))).
  { destruct (fraction n) as [f|].
    - cbn [fraction_chars app]. change (Ascii.eqb "." ".") with true. cbn iota.
      apply span_digits_app; [apply digits_isdigit|].
      pose proof (exponent_head (exponent n)) as E.
      destruct (exponent_chars (exponent n)); [reflexivity|].
      apply orb_false_elim in E. apply E.
    - cbn [fraction_chars app]. pose proof (exponent_head (exponent n)) as E.
      destruct (exponent_chars (exponent n)) as [|c cs]; [reflexivity|].
      apply orb_false_elim in E. rewrite (proj2 E). reflexivity. }
  rewrite G. clear G.
  cbv beta iota. rewrite parse_exponent_written. unfold exponent_value.
  set (f := match fraction n with Some d => d | None => Decimal.Nil end).
  destruct (digits (whole n) ++ digits f)%list as [|a l] eqn:E.
  - apply app_eq_nil in E as [E1 E2]. apply digits_nil in E1, E2.
    rewrite E1, E2. reflexivity.
  - rewrite <- E, digits_value_app, !digits_value_of, digits_length.
    replace (no_digit (whole n) && no_digit f) with false
      by (destruct (whole n), f; try reflexivity; discriminate E).
    cbn [negb andb].
    destruct (exponent n) as [[[cap s] d]|]; [destruct (no_digit d)|]; reflexivity.
Qed.

(** [float()] on a literal between blanks *)

Lemma float_of_literal pre post n :
  float_of_string (literal_text pre post n)
  = if well_formed n then Some (literal_float n) else None.
Proof.
  unfold float_of_string, literal_text.
  set (ws1 := filter blank pre). set (ws2 := filter blank post).
  assert (H1 : forallb isspace_c ws1 = true)
    by exact (forallb_impl _ _ _ blank_isspace_c (filter_all blank pre)).
  assert (H2 : forallb isspace_c ws2 = true)
    by exact (forallb_impl _ _ _ blank_isspace_c (filter_all blank post)).
  pose proof (literal_chars_literal n) as Hn.
  assert (A : forallb (fun c => literal_char c || isspace_c c)
                      (ws1 ++ literal_chars n ++ ws2) = true).
  { apply forallb_app3.
    - apply (forallb_impl isspace_c); [|exact H1]. intros c ->. apply orb_true_r.
    - apply (forallb_impl literal_char); [|exact Hn]. intros c ->. reflexivity.
    - apply (forallb_impl isspace_c); [|exact H2]. intros c ->. apply orb_true_r. }
  rewrite number_text_ascii
    by (apply (forallb_impl _ _ _ (fun c H => proj1 (literal_char_facts c H)) A)).
  unfold float_of_ascii.
  rewrite drop_underscores_none
    by (apply (forallb_impl (fun c => literal_char c || isspace_c c)); [|exact A];
        intros c H; rewrite (proj2 (literal_char_facts c H)); reflexivity).
  rewrite strip_with_padding
    by (try assumption; exact (forallb_impl _ _ _ literal_char_no_space Hn)).
  unfold literal_chars.
  rewrite (split_sign_written _ _ (unsigned_head n)).
  rewrite !unsigned_no_word by (reflexivity || discriminate).
  cbn [orb]. apply parse_decimal_unsigned.
Qed.

End Literals.

Lemma literal_truthy pre post n :
  well_formed n = true -> truthy (VStr (literal_text pre post n)) = true.
Proof.
  intros H. unfold literal_text, literal_chars, unsigned_chars.
  destruct (filter blank pre); [|reflexivity].
  destruct (written_sign n) as [[|]|]; try reflexivity.
  unfold well_formed, fraction_digits in H.
  destruct (whole n); try reflexivity.
  destruct (fraction n) as [f|]; [reflexivity|discriminate H].
Qed.

Lemma literal_coerced pre post n :
  well_formed n = true ->
  py_float (py_or (VStr (literal_text pre post n)) (VInt 0)) = Ok (literal_float n).
Proof.
  intros H. unfold py_or. rewrite (literal_truthy pre post n H). cbn [py_float].
  rewrite float_of_literal, H. reflexivity.
Qed.

(** ** The load attempt *)

Section Loading.
Variable W : World.

Ltac load_cases :=
  cbn;
  repeat match goal with
         | |- context [isfile W ?p] => destruct (isfile W p); cbn; [|reflexivity]
         | |- context [joblib_load W ?p] => destruct (joblib_load W p); cbn; [|reflexivity]
         end;
  reflexivity.

Lemma startup_state : startup W = startup_expected W.
Proof.
  unfold startup, startup_expected, all_deserialized, preprocessor_kept,
    try_load_models, try_except, seq, lift, raise, set_preprocessor,
    set_models_loaded, initial_bundle.
  cbn [forallb map snd MODEL_FILES models_kept load_each].
  unfold seq, lift, raise, set_model, ret.
  load_cases.
Qed.

Lemma load_attempt_returns : snd (try_load_models W (initial_bundle W)) = Ok tt.
Proof.
  unfold try_load_models, try_except, seq, lift, raise, set_preprocessor,
    set_models_loaded, initial_bundle.
  cbn [MODEL_FILES load_each].
  unfold seq, lift, raise, set_model, ret.
  load_cases.
Qed.

Lemma serve_keeps_bundle (g : Bundle W) rq : fst (serve W g rq) = g.
Proof. destruct rq; reflexivity. Qed.

Lemma reachable_is_startup (g : Bundle W) : reachable W g -> g = startup W.
Proof.
  induction 1 as [|g rq _ IH]; [reflexivity|].
  rewrite serve_keeps_bundle. exact IH.
Qed.


Lemma startup_flag : models_loaded (startup W) = all_deserialized W.
Proof. rewrite startup_state. reflexivity. Qed.

(** With the flag set, the mapping holds the three models in the order of
    [MODEL_FILES]. *)
Lemma loaded_models :
  models_loaded (startup W) = true ->
  exists m1 m2 m3,
    models (startup W)
    = [("Resale_Value", m1); ("Recycle_Value", m2); ("Reuse_Score", m3)].
Proof.
  rewrite startup_state.
  unfold startup_expected, all_deserialized.
  cbn [models models_loaded forallb map snd MODEL_FILES models_kept].
  cbn.
  repeat match goal with
         | |- context [isfile W ?p] => destruct (isfile W p); cbn; [|discriminate]
         | |- context [joblib_load W ?p] => destruct (joblib_load W p); cbn; [|discriminate]
         end.
  intros _. eauto.
Qed.

Lemma model_backed_startup :
  model_backed W (startup W)
  = models_loaded (startup W)
    && match preprocessor (startup W) with Some _ => true | None => false end.
Proof.
  unfold model_backed.
  destruct (models_loaded (startup W)) eqn:E; [|reflexivity].
  destruct (loaded_models E) as (m1 & m2 & m3 & ->).
  destruct (preprocessor (startup W)); reflexivity.
Qed.

(** Whichever branch runs in a reachable state, it answers the three
    targets in the order of [MODEL_FILES]. *)
Lemma three_targets df preds :
  predict_all_targets W (startup W) df = Ok preds ->
  exists r c u,
    preds = [("Resale_Value", r); ("Recycle_Value", c); ("Reuse_Score", u)].
Proof.
  destruct (model_backed W (startup W)) eqn:B.
  - destruct (model_backed_is_pipeline W _ B) as (p & _ & ->).
    assert (L : models_loaded (startup W) = true).
    { unfold model_backed in B. destruct (models_loaded (startup W)); [reflexivity|discriminate]. }
    destruct (loaded_models L) as (m1 & m2 & m3 & ->).
    unfold model_pipeline.
    destruct (map_condition W df); [|discriminate]. cbn [bind].
    destruct (transform W p _); [|discriminate]. cbn [bind].
    destruct (make_frame W _ _) as [X_enc|]; [|discriminate]. cbn [bind predict_each].
    destruct (predict_first W m1 X_enc); [|discriminate]. cbn [bind].
    destruct (predict_first W m2 X_enc); [|discriminate]. cbn [bind].
    destruct (predict_first W m3 X_enc); [|discriminate]. cbn.
    intros [= <-]. eauto.
  - rewrite (not_model_backed_is_fallback W _ _ B). unfold fallback.
    destruct (py_float _); [|discriminate]. cbn [bind].
    destruct (py_float _); [|discriminate]. cbn [bind].
    destruct (py_float _); [|discriminate]. cbn [bind].
    intros [= <-]. eauto.
Qed.

End Loading.

(** * The claims *)

(** C1. In fallback mode (the loaded flag is off), for a record whose price,
    age and weight are numbers or missing (missing read as zero), the
    pipeline returns exactly resale = round(max(0, price*0.2 - age*0.1), 2),
    recycle = round(max(0, weight*12.0), 2) and
    reuse = round(max(0, 100 - age), 2); price 100, age 10, weight 5 give
    19.0, 60.0 and 90.0. *)
Theorem fallback_mode_formulas (W : World) (g : Bundle W) (df : DataFrame)
    (price age weight : PyFloat.float) :
  models_loaded g = false ->
  number_read (Original_Price df) = Some price ->
  number_read (Age_Months df) = Some age ->
  number_read (Weight_Kg df) = Some weight ->
  predict_all_targets W g df
  = Ok [ ("Resale_Value", resale_formula price age);
         ("Recycle_Value", recycle_formula weight);
         ("Reuse_Score", reuse_formula age) ]
  /\ predict_all_targets W g (record_of (VInt 100) (VInt 10) (VInt 5))
     = Ok [ ("Resale_Value", NFloat (PyFloat.nearest_of_Z 19));
            ("Recycle_Value", NFloat (PyFloat.nearest_of_Z 60));
            ("Reuse_Score", NFloat (PyFloat.nearest_of_Z 90)) ].
Proof.
  intros Hg Hp Ha Hw. rewrite !unloaded_is_fallback by exact Hg. split.
  - apply fallback_formulas; assumption.
  - vm_compute. reflexivity.
Qed.

Lemma fallback_mode_formulas_witness :
  let W := bare_world (Raise BadRequest) in
  let df := record_of (VFloat (S754_zero true)) VNone (VInt 3) in
  models_loaded (startup W) = false
  /\ predict_all_targets W (startup W) df
     = Ok [ ("Resale_Value", NInt 0);
            ("Recycle_Value", NFloat (PyFloat.nearest_of_Z 36));
            ("Reuse_Score", NFloat (PyFloat.nearest_of_Z 100)) ].
Proof.
  split; [reflexivity|].
  exact (proj1 (fallback_mode_formulas (bare_world (Raise BadRequest))
                  (startup (bare_world (Raise BadRequest)))
                  (record_of (VFloat (S754_zero true)) VNone (VInt 3))
                  (S754_zero true) PyFloat.pos_zero (PyFloat.nearest_of_Z 3)
                  eq_refl eq_refl eq_refl eq_refl)).
Defined.

(** C7. Whatever the sign of the numbers given for price, age and weight,
    each of the three fallback scores is greater than or equal to zero;
    price -50, age 200, weight -3 give 0, 0 and 0. *)
Theorem fallback_never_negative (W : World) (g : Bundle W) (df : DataFrame)
    (price age weight : PyFloat.float) :
  models_loaded g = false ->
  number_read (Original_Price df) = Some price ->
  number_read (Age_Months df) = Some age ->
  number_read (Weight_Kg df) = Some weight ->
  (exists resale recycle reuse,
      predict_all_targets W g df
      = Ok [ ("Resale_Value", resale); ("Recycle_Value", recycle);
             ("Reuse_Score", reuse) ]
      /\ nonneg resale = true /\ nonneg recycle = true /\ nonneg reuse = true)
  /\ predict_all_targets W g (record_of (VInt (-50)) (VInt 200) (VInt (-3)))
     = Ok [ ("Resale_Value", NInt 0); ("Recycle_Value", NInt 0);
            ("Reuse_Score", NInt 0) ].
Proof.
  intros Hg Hp Ha Hw. rewrite !unloaded_is_fallback by exact Hg. split.
  - rewrite (fallback_formulas df _ _ _ Hp Ha Hw).
    do 3 eexists. split; [reflexivity|].
    repeat split; apply score_nonneg.
  - vm_compute. reflexivity.
Qed.

Lemma fallback_never_negative_witness :
  let W := bare_world (Raise BadRequest) in
  exists resale recycle reuse,
    predict_all_targets W (startup W) (record_of (VInt (-7)) (VFloat (S754_infinity true)) VNone)
    = Ok [ ("Resale_Value", resale); ("Recycle_Value", recycle);
           ("Reuse_Score", reuse) ]
    /\ nonneg resale = true /\ nonneg recycle = true /\ nonneg reuse = true.
Proof.
  exact (proj1 (fallback_never_negative (bare_world (Raise BadRequest))
                  (startup (bare_world (Raise BadRequest)))
                  (record_of (VInt (-7)) (VFloat (S754_infinity true)) VNone)
                  (PyFloat.nearest_of_Z (-7)) (S754_infinity true) PyFloat.pos_zero
                  eq_refl eq_refl eq_refl eq_refl)).
Defined.


Lemma coercion_of_falsy v :
  py_float (py_or v (VInt 0)) = if truthy v then py_float v else Ok PyFloat.pos_zero.
Proof. unfold py_or. destruct (truthy v); reflexivity. Qed.



Lemma build_input_df_not_mapping payload :
  is_mapping payload = false ->
  build_input_df payload = Raise (AttributeError (type_name payload) "get").
Proof. destruct payload; (discriminate || reflexivity). Qed.




Lemma decimal_coerced n :
  py_float (py_or (VStr (decimal n)) (VInt 0)) = Ok (PyFloat.nearest_of_Z (Z.of_N n)).
Proof.
  unfold py_or. rewrite decimal_truthy. cbn [py_float].
  rewrite float_of_decimal. reflexivity.
Qed.

(** C10. In fallback mode a falsy price, weight or age (None, 0, the empty
    string, false) becomes 0.0 before the formulas are applied, and a
    numeric string is read as its number: a decimal literal with or without
    sign, point and exponent, between any blanks, as the double nearest to
    the number it writes (the text 5 as 5.0), so string-typed numbers are
    accepted by the fallback. *)
Theorem falsy_and_numeric_strings (W : World) (g : Bundle W) :
  models_loaded g = false ->
  (forall v, py_float (py_or v (VInt 0))
             = if truthy v then py_float v else Ok PyFloat.pos_zero)
  /\ (truthy VNone = false /\ truthy (VInt 0) = false
      /\ truthy (VStr "") = false /\ truthy (VBool false) = false)
  /\ predict_all_targets W g (record_of VNone (VInt 0) (VStr ""))
     = Ok [ ("Resale_Value", resale_formula PyFloat.pos_zero PyFloat.pos_zero);
            ("Recycle_Value", recycle_formula PyFloat.pos_zero);
            ("Reuse_Score", reuse_formula PyFloat.pos_zero) ]
  /\ predict_all_targets W g (record_of (VBool false) (VStr "") VNone)
     = predict_all_targets W g (record_of VNone (VInt 0) (VStr ""))
  /\ (forall s, py_float (py_or (VStr s) (VInt 0))
                = if String.eqb s "" then Ok PyFloat.pos_zero
                  else match PyStr.float_of_string s with
                       | Some f => Ok f
                       | None => Raise (ValueError_float s)
                       end)
  /\ (forall n : N, py_float (py_or (VStr (decimal n)) (VInt 0))
                    = Ok (PyFloat.nearest_of_Z (Z.of_N n)))
  /\ py_float (py_or (VStr "5") (VInt 0)) = Ok (PyFloat.nearest_of_Z 5)
  /\ (forall price age weight : N,
        predict_all_targets W g
          (record_of (VStr (decimal price)) (VStr (decimal age)) (VStr (decimal weight)))
        = Ok [ ("Resale_Value", resale_formula (PyFloat.nearest_of_Z (Z.of_N price))
                                               (PyFloat.nearest_of_Z (Z.of_N age)));
               ("Recycle_Value", recycle_formula (PyFloat.nearest_of_Z (Z.of_N weight)));
               ("Reuse_Score", reuse_formula (PyFloat.nearest_of_Z (Z.of_N age))) ])
  /\ predict_all_targets W g (record_of (VStr "100") (VStr "10") (VStr "5"))
     = Ok [ ("Resale_Value", NFloat (PyFloat.nearest_of_Z 19));
            ("Recycle_Value", NFloat (PyFloat.nearest_of_Z 60));
            ("Reuse_Score", NFloat (PyFloat.nearest_of_Z 90)) ]
  /\ (forall pre post n,
        PyStr.float_of_string (literal_text pre post n)
        = if well_formed n then Some (literal_float n) else None)
  /\ (forall pre post n,
        well_formed n = true ->
        py_float (py_or (VStr (literal_text pre post n)) (VInt 0)) = Ok (literal_float n))
  /\ (forall pre post price age weight,
        well_formed price && well_formed age && well_formed weight = true ->
        predict_all_targets W g
          (record_of (VStr (literal_text pre post price)) (VStr (literal_text pre post age))
                     (VStr (literal_text pre post weight)))
        = Ok [ ("Resale_Value", resale_formula (literal_float price) (literal_float age));
               ("Recycle_Value", recycle_formula (literal_float weight));
               ("Reuse_Score", reuse_formula (literal_float age)) ])
  /\ (py_float (py_or (VStr "-2.5e1") (VInt 0)) = Ok (S754_finite true 7036874417766400 (-48))
      /\ py_float (py_or (VStr " +.5 ") (VInt 0)) = Ok (S754_finite false 4503599627370496 (-53))
      /\ py_float (py_or (VStr "1E-2") (VInt 0)) = Ok (S754_finite false 5764607523034235 (-59))
      /\ py_float (py_or (VStr "1_000") (VInt 0)) = Ok (PyFloat.nearest_of_Z 1000)
      /\ py_float (py_or (VStr "1e400") (VInt 0)) = Ok (S754_infinity false)
      /\ py_float (py_or (VStr "-0") (VInt 0)) = Ok (S754_zero true)
      /\ py_float (py_or (VStr "inf") (VInt 0)) = Ok (S754_infinity false)
      /\ py_float (py_or (VStr "-Infinity") (VInt 0)) = Ok (S754_infinity true)
      /\ py_float (py_or (VStr "NaN") (VInt 0)) = Ok S754_nan)
  /\ (py_float (py_or (VStr (PyStr.utf8 [1633; 1634]%N)) (VInt 0))
      = Ok (PyFloat.nearest_of_Z 12)
      /\ py_float (py_or (VStr (PyStr.utf8 [160; 55]%N)) (VInt 0))
         = Ok (PyFloat.nearest_of_Z 7)
      /\ py_float (py_or (VStr (PyStr.utf8 [65299; 46; 65301]%N)) (VInt 0))
         = Ok (S754_finite false 7881299347898368 (-51)))
  /\ predict_all_targets W g
       (record_of (VStr "1e2") (VStr (PyStr.utf8 [1633; 1632]%N)) (VStr " 5.0 "))
     = Ok [ ("Resale_Value", NFloat (PyFloat.nearest_of_Z 19));
            ("Recycle_Value", NFloat (PyFloat.nearest_of_Z 60));
            ("Reuse_Score", NFloat (PyFloat.nearest_of_Z 90)) ].
Proof.
  intros Hg. rewrite !unloaded_is_fallback by exact Hg.
  split; [exact coercion_of_falsy|].
  split; [repeat split; reflexivity|].
  split; [reflexivity|].
  split; [reflexivity|].
  split.
  { intros s. rewrite coercion_of_falsy. cbn [truthy py_float].
    destruct (String.eqb s ""); reflexivity. }
  split; [exact decimal_coerced|].
  split; [reflexivity|].
  split.
  { intros price age weight.
    setoid_rewrite unloaded_is_fallback; [|exact Hg].
    unfold fallback. cbn [record_of Original_Price Weight_Kg Age_Months].
    rewrite !decimal_coerced. reflexivity. }
  split; [vm_compute; reflexivity|].
  split; [exact float_of_literal|].
  split; [exact literal_coerced|].
  split.
  { intros pre post price age weight H.
    apply andb_prop in H as [H Hw]. apply andb_prop in H as [Hp Ha].
    setoid_rewrite unloaded_is_fallback; [|exact Hg].
    unfold fallback. cbn [record_of Original_Price Weight_Kg Age_Months].
    rewrite !literal_coerced by assumption. reflexivity. }
  split; [repeat split; vm_compute; reflexivity|].
  split; [repeat split; vm_compute; reflexivity|].
  vm_compute; reflexivity.
Qed.

Lemma falsy_and_numeric_strings_witness :
  let W := bare_world (Raise BadRequest) in
  predict_all_targets W (startup W) (record_of (VStr "100") (VStr "10") (VStr "5"))
  = Ok [ ("Resale_Value", NFloat (PyFloat.nearest_of_Z 19));
         ("Recycle_Value", NFloat (PyFloat.nearest_of_Z 60));
         ("Reuse_Score", NFloat (PyFloat.nearest_of_Z 90)) ].
Proof.
  apply (falsy_and_numeric_strings (bare_world (Raise BadRequest))
           (startup (bare_world (Raise BadRequest))) eq_refl).
Defined.

Lemma condition_lookup word :
  dict_get condition_mapping word 0 = vocabulary_ordinal word.
Proof.
  unfold condition_mapping, vocabulary_ordinal. cbn [dict_get].
  rewrite !(String.eqb_sym _ word). reflexivity.
Qed.

(** C3. The condition mapping sends a string that, lower-cased and trimmed,
    is cracked, used, good or new to 1, 2, 3, 4: each of the four words in
    any letter case between any white space, that of Unicode included;
    every other string and a missing value go to 0. *)
Theorem condition_mapping_ordinals (W : World) :
  (forall s, _map_cond W (VStr s) = Ok (vocabulary_ordinal (PyStr.strip (PyStr.lower s))))
  /\ _map_cond W VNone = Ok 0
  /\ (vocabulary_ordinal "cracked" = 1 /\ vocabulary_ordinal "used" = 2
      /\ vocabulary_ordinal "good" = 3 /\ vocabulary_ordinal "new" = 4)
  /\ (forall word, In word ["cracked"; "used"; "good"; "new"]
                   \/ vocabulary_ordinal word = 0)
  /\ (forall pre post mask,
        map (fun word => _map_cond W (VStr (padded pre post mask word)))
            ["cracked"; "used"; "good"; "new"]
        = [Ok 1; Ok 2; Ok 3; Ok 4])
  /\ _map_cond W (VStr "  CraCKed ") = Ok 1
  /\ _map_cond W (VStr "USED") = Ok 2
  /\ _map_cond W (VStr (String (ascii_of_nat 9) "Good" ++ String (ascii_of_nat 10) "")) = Ok 3
  /\ _map_cond W (VStr " new") = Ok 4
  /\ _map_cond W (VStr (PyStr.utf8 [160; 103; 111; 111; 100]%N)) = Ok 3
  /\ _map_cond W (VStr (PyStr.utf8 [110; 101; 119; 133]%N)) = Ok 4
  /\ _map_cond W (VStr (PyStr.utf8 [8195; 85; 115; 101; 100; 12288; 8232]%N)) = Ok 2
  /\ _map_cond W (VStr (PyStr.utf8 [67; 82; 65; 67; 8490; 69; 68]%N)) = Ok 1
  /\ _map_cond W (VStr (PyStr.utf8 [110; 233; 119]%N)) = Ok 0
  /\ _map_cond W (VStr "n e w") = Ok 0
  /\ _map_cond W (VStr "broken") = Ok 0
  /\ _map_cond W (VStr "") = Ok 0.
Proof.
  assert (L : forall s, _map_cond W (VStr s)
                        = Ok (vocabulary_ordinal (PyStr.strip (PyStr.lower s)))).
  { intros s. unfold _map_cond. cbn [isna_scalar bind py_str].
    rewrite condition_lookup. reflexivity. }
  split; [exact L|].
  split; [reflexivity|].
  split; [repeat split; reflexivity|].
  split.
  { intros word. unfold vocabulary_ordinal.
    destruct (String.eqb_spec word "cracked"); [left; subst; simpl; auto|].
    destruct (String.eqb_spec word "used"); [left; subst; simpl; auto|].
    destruct (String.eqb_spec word "good"); [left; subst; simpl; auto|].
    destruct (String.eqb_spec word "new"); [left; subst; simpl; auto 6|].
    right; reflexivity. }
  split.
  { intros pre post mask. cbn [map]. rewrite !L. unfold padded.
    repeat match goal with
    | |- context [PyStr.decode (PyStr.chars ?w)] =>
        let l := eval vm_compute in (PyStr.decode (PyStr.chars w)) in
        change (PyStr.decode (PyStr.chars w)) with l
    end.
    rewrite !strip_lower_padded by (apply filter_all || reflexivity).
    reflexivity. }
  rewrite !L. repeat split; vm_compute; reflexivity.
Qed.

(** C8. For an unmatched path that does not name an existing template file
    ending in .html, the catch-all answers exactly what the home page
    handler answers. *)
Theorem catch_all_serves_home (W : World) (g : Bundle W) (subpath : string) :
  isfile W (os_path_join template_folder subpath) && endswith subpath ".html" = false ->
  catch_all W subpath = index W
  /\ snd (serve W g (Get_unmatched subpath)) = snd (serve W g Get_index).
Proof.
  intros H. cbn [serve snd]. unfold catch_all. rewrite H. split; reflexivity.
Qed.

Lemma catch_all_serves_home_witness :
  let W := sample_world (fun p => String.eqb p "templates/index.html"
                                  || String.eqb p "templates/logo.png")
             (fun p => Raise (FileNotFoundError p)) (Raise BadRequest) in
  catch_all W "logo.png" = Ok {| status := 200; body := Html "index.html" |}
  /\ catch_all W "logo.png" = index W
  /\ catch_all W "missing.html" = index W.
Proof.
  split; [reflexivity|]. split.
  - exact (proj1 (catch_all_serves_home
             (sample_world (fun p => String.eqb p "templates/index.html"
                                     || String.eqb p "templates/logo.png")
                (fun p => Raise (FileNotFoundError p)) (Raise BadRequest))
             (startup _) "logo.png" eq_refl)).
  - exact (proj1 (catch_all_serves_home
             (sample_world (fun p => String.eqb p "templates/index.html"
                                     || String.eqb p "templates/logo.png")
                (fun p => Raise (FileNotFoundError p)) (Raise BadRequest))
             (startup _) "missing.html" eq_refl)).
Defined.

(** C9. A body that is valid JSON but not a mapping (an array, a number, a
    string, null) is answered 500 with the error Prediction failed, not
    400: the mapper calls [get] on the payload and the AttributeError is
    taken for a pipeline failure. *)
Theorem non_mapping_payload_is_500 (W : World) (g : Bundle W)
    (request_body : string) (payload : value) :
  get_json W request_body = Ok payload ->
  is_mapping payload = false ->
  predict W g request_body
  = {| status := 500;
       body := Json [ ("error", JStr "Prediction failed");
                      ("details", JExcText (AttributeError (type_name payload) "get")) ] |}.
Proof.
  intros Hj Hm. unfold predict. rewrite Hj, (build_input_df_not_mapping _ Hm).
  reflexivity.
Qed.

Lemma non_mapping_payload_is_500_witness :
  let W := bare_world (Ok (VList [VInt 1; VInt 2])) in
  predict W (startup W) "[1, 2]"
  = {| status := 500;
       body := Json [ ("error", JStr "Prediction failed");
                      ("details", JExcText (AttributeError "list" "get")) ] |}.
Proof.
  exact (non_mapping_payload_is_500 (bare_world (Ok (VList [VInt 1; VInt 2])))
           (startup (bare_world (Ok (VList [VInt 1; VInt 2]))))
           "[1, 2]" (VList [VInt 1; VInt 2]) eq_refl eq_refl).
Defined.

(** C5, as the code has it.  In every state reachable after the load
    attempt of the import, the loaded flag is on exactly when the four
    artifact files were there and unpickled without raising; the pipeline
    takes the model-backed branch exactly when the flag is on and the
    unpickled preprocessing object is not None, and the fallback branch
    otherwise; serving a request leaves the bundle as it was. *)
Theorem loaded_flag_and_branch (W : World) (g : Bundle W) :
  reachable W g ->
  models_loaded g = all_deserialized W
  /\ preprocessor g = preprocessor_kept W
  /\ model_backed W g
     = models_loaded g && match preprocessor g with Some _ => true | None => false end
  /\ (forall df,
        predict_all_targets W g df
        = match preprocessor g with
          | Some p => if models_loaded g then model_pipeline W p (models g) df
                      else fallback df
          | None => fallback df
          end)
  /\ (forall rq, fst (serve W g rq) = g).
Proof.
  intros Hg. rewrite (reachable_is_startup W g Hg).
  split; [apply startup_flag|].
  split; [rewrite startup_state; reflexivity|].
  split; [apply model_backed_startup|].
  split; [|intros rq; apply serve_keeps_bundle].
  intros df. unfold predict_all_targets.
  destruct (models_loaded (startup W)) eqn:L.
  - destruct (loaded_models W L) as (m1 & m2 & m3 & ->). reflexivity.
  - destruct (preprocessor (startup W)); reflexivity.
Qed.

Lemma loaded_flag_and_branch_witness :
  let W := sample_world (fun _ => true) (fun _ => Ok (Some tt)) (Raise BadRequest) in
  models_loaded (startup W) = true
  /\ model_backed W (startup W) = true
  /\ fst (serve W (startup W) (Post_predict "{}")) = startup W.
Proof.
  pose proof (loaded_flag_and_branch
                (sample_world (fun _ => true) (fun _ => Ok (Some tt)) (Raise BadRequest))
                (startup _) (reach_startup _)) as (H1 & _ & H3 & _ & H5).
  split; [exact H1|]. split; [exact H3|]. exact (H5 (Post_predict "{}")).
Defined.

(** C5 fails as stated: when [preprocessor.pkl] holds a pickled None, the
    flag is on and yet the pipeline takes the fallback branch. *)
Lemma flag_on_but_fallback_taken :
  let W := null_preprocessor_world (Raise BadRequest) in
  let df := record_of (VInt 100) (VInt 10) (VInt 5) in
  all_deserialized W = true
  /\ models_loaded (startup W) = true
  /\ model_backed W (startup W) = false
  /\ predict_all_targets W (startup W) df = fallback df.
Proof. repeat split; reflexivity. Qed.

(** C6, as the code has it.  If one of the four artifact files is missing
    or fails to unpickle, the load attempt raises nothing and leaves the
    loaded flag off, so that the pipeline takes the fallback; what was
    unpickled before the failure stays in the bundle: the preprocessing
    object if it was read, and the models read before the failing one. *)
Theorem failed_load_leaves_flag_off (W : World) :
  all_deserialized W = false ->
  snd (try_load_models W (initial_bundle W)) = Ok tt
  /\ models_loaded (startup W) = false
  /\ preprocessor (startup W) = preprocessor_kept W
  /\ models (startup W)
     = (if isfile W PREPROCESSOR_PKL && is_ok (joblib_load W PREPROCESSOR_PKL)
        then models_kept W MODEL_FILES else [])
  /\ (forall df, predict_all_targets W (startup W) df = fallback df).
Proof.
  intros H.
  split; [apply load_attempt_returns|].
  assert (L : models_loaded (startup W) = false) by (rewrite startup_flag; exact H).
  split; [exact L|].
  split; [rewrite startup_state; reflexivity|].
  split; [rewrite startup_state; reflexivity|].
  intros df. apply unloaded_is_fallback, L.
Qed.

Lemma failed_load_leaves_flag_off_witness :
  snd (try_load_models partial_world (initial_bundle partial_world)) = Ok tt
  /\ models_loaded (startup partial_world) = false.
Proof.
  pose proof (failed_load_leaves_flag_off partial_world eq_refl) as (H1 & H2 & _).
  split; [exact H1 | exact H2].
Defined.

(** C6 fails as stated: with the second model file missing, the
    preprocessing object and the first model stay in the bundle. *)
Lemma partial_load_is_retained :
  all_deserialized partial_world = false
  /\ models_loaded (startup partial_world) = false
  /\ preprocessor (startup partial_world) = Some tt
  /\ models (startup partial_world) = [("Resale_Value", Some tt)].
Proof. repeat split; reflexivity. Qed.

(** C4, as the code has it.  A body that does not parse as JSON is answered
    400 with the error Invalid JSON; a mapper or pipeline step that raises
    is answered 500 with the error Prediction failed and the text of the
    exception; otherwise the answer is 200 with exactly the keys
    resale_value, recycle_score, reuse_score (the three pipeline outputs)
    and models_loaded, which is the loaded flag of the bundle: it tells that
    model-backed prediction was used unless the preprocessing object is
    None. *)
Theorem predict_responses (W : World) (g : Bundle W) (request_body : string) :
  reachable W g ->
  match get_json W request_body with
  | Raise _ =>
      predict W g request_body
      = {| status := 400; body := Json [("error", JStr "Invalid JSON")] |}
  | Ok payload =>
      match (df <- build_input_df payload ;; predict_all_targets W g df) with
      | Raise e =>
          predict W g request_body
          = {| status := 500;
               body := Json [ ("error", JStr "Prediction failed");
                              ("details", JExcText e) ] |}
      | Ok preds =>
          exists resale recycle reuse,
            preds = [ ("Resale_Value", resale); ("Recycle_Value", recycle);
                      ("Reuse_Score", reuse) ]
            /\ predict W g request_body
               = {| status := 200;
                    body := Json [ ("resale_value", JNum resale);
                                   ("recycle_score", JNum recycle);
                                   ("reuse_score", JNum reuse);
                                   ("models_loaded", JBool (models_loaded g)) ] |}
      end
  end
  /\ model_backed W g
     = models_loaded g && match preprocessor g with Some _ => true | None => false end.
Proof.
  intros Hg. rewrite (reachable_is_startup W g Hg).
  split; [|apply model_backed_startup].
  unfold predict.
  destruct (get_json W request_body) as [payload|e]; [|reflexivity].
  destruct (build_input_df payload) as [df|e]; cbn [bind]; [|reflexivity].
  destruct (predict_all_targets W (startup W) df) as [preds|e] eqn:E; [|reflexivity].
  destruct (three_targets W df preds E) as (r & c & u & ->).
  exists r, c, u. split; reflexivity.
Qed.

Lemma predict_responses_witness :
  let W := bare_world (Ok (VDict [("price", VInt 100); ("age", VInt 10); ("weight", VInt 5)])) in
  predict W (startup W) "body"
  = {| status := 200;
       body := Json [ ("resale_value", JNum (NFloat (PyFloat.nearest_of_Z 19)));
                      ("recycle_score", JNum (NFloat (PyFloat.nearest_of_Z 60)));
                      ("reuse_score", JNum (NFloat (PyFloat.nearest_of_Z 90)));
                      ("models_loaded", JBool false) ] |}.
Proof.
  pose proof (predict_responses
                (bare_world (Ok (VDict [("price", VInt 100); ("age", VInt 10); ("weight", VInt 5)])))
                (startup _) "body" (reach_startup _)) as [H _].
  cbn in H. destruct H as (r & c & u & E & H).
  injection E as <- <- <-. exact H.
Defined.

(** C4 fails as stated: with a pickled None for the preprocessor the answer
    says models_loaded true although the fallback computed the scores. *)
Lemma models_loaded_true_on_fallback :
  let payload := VDict [("price", VInt 100); ("age", VInt 10); ("weight", VInt 5)] in
  let W := null_preprocessor_world (Ok payload) in
  model_backed W (startup W) = false
  /\ (df <- build_input_df payload ;; predict_all_targets W (startup W) df)
     = (df <- build_input_df payload ;; fallback df)
  /\ predict W (startup W) "body"
     = {| status := 200;
          body := Json [ ("resale_value", JNum (NFloat (PyFloat.nearest_of_Z 19)));
                         ("recycle_score", JNum (NFloat (PyFloat.nearest_of_Z 60)));
                         ("reuse_score", JNum (NFloat (PyFloat.nearest_of_Z 90)));
                         ("models_loaded", JBool true) ] |}.
Proof. repeat split; reflexivity. Qed.

(** * Further properties of the program *)

(** ** The input mapper and the fallback *)



(** *** Scores that are zero *)

Lemma binary_round_sign prec emax s m e :
  signed_as s (binary_round prec emax s m e).
Proof.
  unfold binary_round. destruct (shl_align _ _ _) as [mz ez].
  apply binary_round_aux_sign. lia.
Qed.

Lemma not_above_zero_shape x : not_above_zero x = true -> zero_or_signed true x.
Proof.
  destruct x as [s|s| |s m e]; simpl; intros H; subst;
    constructor; constructor.
Qed.

Lemma not_below_zero_shape x : not_below_zero x = true -> zero_or_signed false x.
Proof.
  destruct x as [s|s| |s m e]; simpl; intros H;
    try (apply negb_true_iff in H; subst); constructor; constructor.
Qed.

(** Multiplying by a positive literal keeps the side of zero. *)
Lemma mul_positive_literal s x mc ec :
  zero_or_signed s x ->
  zero_or_signed s (PyFloat.mul x (S754_finite false mc ec)).
Proof.
  intros [|s'|x' [|m e|]]; cbn [PyFloat.mul SFmul]; try constructor.
  - rewrite xorb_false_r. apply binary_round_aux_sign. lia.
  - rewrite xorb_false_r. constructor.
Qed.

Lemma sub_below_above x y :
  zero_or_signed true x -> zero_or_signed false y ->
  zero_or_signed true (PyFloat.sub x y).
Proof.
  intros Hx Hy.
  destruct Hx as [|sx|x' [|mx ex|]]; destruct Hy as [|sy|y' [|my ey|]];
    cbn [PyFloat.sub SFsub negb];
    try (destruct sx); try (destruct sy);
    try first [apply zs_nan | apply zs_zero
              | apply zs_signed;
                first [apply signed_infinity | apply signed_finite | apply signed_zero]].
  cbn [cond_Zopp]. apply zs_signed.
  set (a := fst (shl_align mx ex _)). set (b := fst (shl_align my ey _)).
  change (- Z.pos a - Z.pos b) with (Z.neg (a + b)).
  apply binary_round_sign.
Qed.

Lemma max_0_not_above x : zero_or_signed true x -> max_0 x = NInt 0.
Proof. intros [|s|x' [|m e|]]; reflexivity. Qed.

Lemma resale_formula_zero price age :
  not_above_zero price = true -> not_below_zero age = true ->
  resale_formula price age = NInt 0.
Proof.
  intros Hp Ha. unfold resale_formula.
  rewrite max_0_not_above; [reflexivity|].
  apply sub_below_above; apply mul_positive_literal;
    [apply not_above_zero_shape, Hp | apply not_below_zero_shape, Ha].
Qed.

Lemma recycle_formula_zero weight :
  not_above_zero weight = true -> recycle_formula weight = NInt 0.
Proof.
  intros Hw. unfold recycle_formula.
  rewrite max_0_not_above; [reflexivity|].
  apply mul_positive_literal, not_above_zero_shape, Hw.
Qed.

(** X2. In fallback mode the recycle value is the int 0 whenever the weight
    is zero, negative or a NaN, and the resale value is the int 0 whenever
    the price is zero, negative or a NaN while the age is zero, positive or
    a NaN: nothing is computed from such inputs but a plain zero. *)
Theorem fallback_zero_scores (W : World) (g : Bundle W) (df : DataFrame)
    (price age weight : PyFloat.float) :
  models_loaded g = false ->
  number_read (Original_Price df) = Some price ->
  number_read (Age_Months df) = Some age ->
  number_read (Weight_Kg df) = Some weight ->
  predict_all_targets W g df
  = Ok [ ("Resale_Value",
           if not_above_zero price && not_below_zero age then NInt 0
           else resale_formula price age);
         ("Recycle_Value",
           if not_above_zero weight then NInt 0 else recycle_formula weight);
         ("Reuse_Score", reuse_formula age) ].
Proof.
  intros Hg Hp Ha Hw. rewrite unloaded_is_fallback by exact Hg.
  rewrite (fallback_formulas df _ _ _ Hp Ha Hw).
  destruct (not_above_zero price) eqn:Ep, (not_below_zero age) eqn:Ea,
           (not_above_zero weight) eqn:Ew; cbn [andb];
    rewrite ?(resale_formula_zero _ _ Ep Ea), ?(recycle_formula_zero _ Ew);
    reflexivity.
Qed.

Lemma fallback_zero_scores_witness :
  let W := bare_world (Raise BadRequest) in
  predict_all_targets W (startup W)
    (record_of (VInt (-20)) (VFloat (S754_infinity false)) (VFloat S754_nan))
  = Ok [ ("Resale_Value", NInt 0); ("Recycle_Value", NInt 0); ("Reuse_Score", NInt 0) ].
Proof.
  exact (fallback_zero_scores (bare_world (Raise BadRequest)) (startup _)
           (record_of (VInt (-20)) (VFloat (S754_infinity false)) (VFloat S754_nan))
           (PyFloat.nearest_of_Z (-20)) (S754_infinity false) S754_nan
           eq_refl eq_refl eq_refl eq_refl).
Defined.

(** ** The model-backed pipeline *)

Lemma vocabulary_ordinal_range word : 0 <= vocabulary_ordinal word <= 4.
Proof.
  unfold vocabulary_ordinal.
  repeat match goal with |- context [String.eqb ?a ?b] => destruct (String.eqb a b) end;
    lia.
Qed.

Lemma _map_cond_range (W : World) v n : _map_cond W v = Ok n -> 0 <= n <= 4.
Proof.
  unfold _map_cond.
  destruct (match v with VList items => isna_list_truth W items | _ => Ok (isna_scalar v) end)
    as [[|]|e]; cbn [bind]; try discriminate.
  - intros [= <-]. lia.
  - rewrite condition_lookup.
    pose proof (vocabulary_ordinal_range (PyStr.strip (PyStr.lower (py_str W v)))) as R.
    revert R. generalize (vocabulary_ordinal (PyStr.strip (PyStr.lower (py_str W v)))).
    intros z R [= <-]. exact R.
Qed.

(** X3. What the model-backed branch hands to the preprocessor: the column
    Condition holds an int between 0 and 4, and the other five columns are
    those of the request. *)
Theorem map_condition_keeps_columns (W : World) (X X' : DataFrame) :
  map_condition W X = Ok X' ->
  (exists n, Condition X' = VInt n /\ 0 <= n <= 4)
  /\ Plastic_Type X' = Plastic_Type X /\ Weight_Kg X' = Weight_Kg X
  /\ Age_Months X' = Age_Months X /\ Original_Price X' = Original_Price X
  /\ Location X' = Location X.
Proof.
  unfold map_condition. destruct (_map_cond W (Condition X)) as [n|e] eqn:E;
    cbn [bind]; [|discriminate].
  intros [= <-]. split; [|repeat split].
  exists n. split; [reflexivity | exact (_map_cond_range W _ _ E)].
Qed.

Lemma map_condition_keeps_columns_witness :
  let W := bare_world (Raise BadRequest) in
  let X := {| Plastic_Type := VStr "PET"; Condition := VStr " Good "; Weight_Kg := VInt 2;
              Age_Months := VInt 6; Original_Price := VStr "n/a"; Location := VNone |} in
  map_condition W X
  = Ok {| Plastic_Type := VStr "PET"; Condition := VInt 3; Weight_Kg := VInt 2;
          Age_Months := VInt 6; Original_Price := VStr "n/a"; Location := VNone |}
  /\ exists n, VInt 3 = VInt n /\ 0 <= n <= 4.
Proof.
  split; [reflexivity|].
  exact (proj1 (map_condition_keeps_columns (bare_world (Raise BadRequest))
                  {| Plastic_Type := VStr "PET"; Condition := VStr " Good ";
                     Weight_Kg := VInt 2; Age_Months := VInt 6;
                     Original_Price := VStr "n/a"; Location := VNone |}
                  _ eq_refl)).
Defined.

(** *** Conditions that are not strings *)

Lemma drop_while_last {A : Type} (p : A -> bool) c l :
  p c = false -> exists l', PyStr.drop_while p (l ++ [c])%list = (l' ++ [c])%list.
Proof.
  intros Hc. induction l as [|a l IH]; cbn [app PyStr.drop_while].
  - rewrite Hc. exists []. reflexivity.
  - destruct (p a); [exact IH | exists (a :: l); reflexivity].
Qed.

Lemma strip_keeps_head {A : Type} (p : A -> bool) c rest :
  p c = false -> exists rest', PyStr.strip_with p (c :: rest) = c :: rest'.
Proof.
  intros Hc. unfold PyStr.strip_with. cbn [PyStr.drop_while]. rewrite Hc.
  cbn [rev]. destruct (drop_while_last p c (rev rest) Hc) as [l' ->].
  rewrite rev_app_distr. cbn [rev app]. eauto.
Qed.

(** What [lower] and [strip] do with a first character that is a digit or a
    minus sign: they keep it. *)
Lemma plain_head c :
  PyStr.isdigit c = true \/ c = "-"%char ->
  (PyStr.byte c <? 128)%N = true
  /\ (PyStr.byte c =? 931)%N = false
  /\ PyStr.lower_one (PyStr.byte c) = [PyStr.byte c]
  /\ PyStr.isspace (PyStr.byte c) = false
  /\ PyStr.encode_one (PyStr.byte c) = [c]
  /\ forall tl, vocabulary_ordinal (String c tl) = 0.
Proof.
  intros [Hc| ->]; [|repeat split].
  revert c Hc. apply isdigit_cases; repeat split.
Qed.

Lemma lower_keeps_head c rest :
  PyStr.isdigit c = true \/ c = "-"%char ->
  exists rest', PyStr.lower (String c rest) = String c rest'.
Proof.
  intros Hc. destruct (plain_head c Hc) as (Ha & Hs & Ho & _ & He & _).
  unfold PyStr.lower, PyStr.utf8, PyStr.chars. cbn [list_ascii_of_string PyStr.decode].
  fold (PyStr.byte c). rewrite Ha.
  cbn [PyStr.lower_from]. rewrite Hs, Ho.
  cbn [app PyStr.encode flat_map]. rewrite He.
  cbn [app string_of_list_ascii]. eauto.
Qed.

Lemma strip_keeps_plain_head c rest :
  PyStr.isdigit c = true \/ c = "-"%char ->
  exists rest', PyStr.strip (String c rest) = String c rest'.
Proof.
  intros Hc. destruct (plain_head c Hc) as (Ha & _ & _ & Hw & He & _).
  unfold PyStr.strip, PyStr.utf8, PyStr.chars. cbn [list_ascii_of_string PyStr.decode].
  fold (PyStr.byte c). rewrite Ha.
  destruct (strip_keeps_head PyStr.isspace (PyStr.byte c)
              (PyStr.decode (list_ascii_of_string rest)) Hw) as [rest' ->].
  cbn [PyStr.encode flat_map]. rewrite He.
  cbn [app string_of_list_ascii]. eauto.
Qed.

(** A text that starts with a digit or a minus sign is no condition word. *)
Lemma numeral_is_no_condition c rest :
  PyStr.isdigit c = true \/ c = "-"%char ->
  vocabulary_ordinal (PyStr.strip (PyStr.lower (String c rest))) = 0.
Proof.
  intros Hc.
  destruct (lower_keeps_head c rest Hc) as [r1 ->].
  destruct (strip_keeps_plain_head c r1 Hc) as [r2 ->].
  apply (plain_head c Hc).
Qed.

Lemma string_of_uint_head d :
  exists c rest, NilZero.string_of_uint d = String c rest /\ PyStr.isdigit c = true.
Proof. destruct d; do 2 eexists; split; reflexivity. Qed.

(** X4. A condition that is null, a bool, an int or a NaN is mapped to 0
    without raising, whatever its value. *)
Theorem non_string_condition_is_zero (W : World) :
  _map_cond W VNone = Ok 0
  /\ _map_cond W (VFloat S754_nan) = Ok 0
  /\ (forall b, _map_cond W (VBool b) = Ok 0)
  /\ (forall n, _map_cond W (VInt n) = Ok 0).
Proof.
  split; [reflexivity|]. split; [reflexivity|]. split.
  - intros [|]; reflexivity.
  - intros n. unfold _map_cond. cbn [isna_scalar bind py_str].
    rewrite condition_lookup. f_equal.
    unfold NilZero.string_of_int.
    destruct (Z.to_int n) as [d|d];
      destruct (string_of_uint_head d) as (c & rest & -> & Hc).
    + apply numeral_is_no_condition. left; exact Hc.
    + apply numeral_is_no_condition. right; reflexivity.
Qed.

(** *** Column names made up when the preprocessor has none *)

Lemma to_uint_nonnil n : Nat.to_uint n <> Decimal.Nil.
Proof.
  rewrite <- (DecimalNat.Unsigned.of_to n) at 1.
  rewrite DecimalNat.Unsigned.to_of.
  unfold Decimal.unorm. destruct (Decimal.nzhead (Nat.to_uint n)); discriminate.
Qed.

Lemma numeral_of_nat_inj i j :
  NilZero.string_of_uint (Nat.to_uint i) = NilZero.string_of_uint (Nat.to_uint j) ->
  i = j.
Proof.
  intros E. apply (f_equal NilZero.uint_of_string) in E.
  rewrite !NilZero.usu in E by apply to_uint_nonnil.
  injection E as E. apply DecimalNat.Unsigned.to_uint_inj, E.
Qed.

(** X5. The names [f0], [f1], ... given to the encoded columns when the
    preprocessor cannot name them: one name per column, the i-th being the
    letter f followed by the decimal numeral of i, and no name twice. *)
Theorem positional_names_distinct (n : nat) :
  List.length (positional_names n) = n
  /\ NoDup (positional_names n)
  /\ Forall2 (fun i name => name = "f" ++ NilZero.string_of_uint (Nat.to_uint i))
       (List.seq 0 n) (positional_names n).
Proof.
  unfold positional_names. split; [|split].
  - rewrite length_map, length_seq. reflexivity.
  - apply Finite.Injective_map_NoDup; [|apply seq_NoDup].
    intros i j E. injection E as E. apply numeral_of_nat_inj, E.
  - induction (List.seq 0 n); cbn [map]; constructor; auto.
Qed.

(** *** One prediction per model *)

Section Scores.
Variable W : World.

Lemma dict_set_fresh {V : Type} (d : list (string * V)) k v :
  ~ In k (map fst d) -> dict_set d k v = (d ++ [(k, v)])%list.
Proof.
  induction d as [|[k' w] d IH]; cbn [dict_set map fst In app]; intros H;
    [reflexivity|].
  destruct (String.eqb_spec k' k) as [->|_]; [tauto|].
  rewrite IH by tauto. reflexivity.
Qed.

Lemma predict_each_appends ms : forall X_enc out,
  NoDup (map fst out ++ map fst ms) ->
  predict_each W ms X_enc out
  = (scores <- scores_in_order W ms X_enc ;; Ok (out ++ scores)%list).
Proof.
  induction ms as [|[k m] ms IH]; intros X_enc out H;
    cbn [predict_each scores_in_order bind map fst].
  - rewrite app_nil_r. reflexivity.
  - destruct (predict_first W m X_enc) as [y|e]; cbn [bind]; [|reflexivity].
    cbn [map fst] in H.
    rewrite dict_set_fresh.
    + rewrite IH.
      * destruct (scores_in_order W ms X_enc); cbn [bind]; [|reflexivity].
        rewrite <- app_assoc. reflexivity.
      * rewrite map_app. cbn [map fst]. rewrite <- app_assoc. exact H.
    + apply NoDup_remove_2 in H. intros Hin. apply H, in_or_app. left; exact Hin.
Qed.

End Scores.

(** X6. The loop over the models: when no model name occurs twice, it
    returns the predictions of the models in the order of the mapping, each
    as the float the model gave (not rounded, not cut at zero), and it
    raises what the first failing model raises. *)
Theorem predict_each_in_order (W : World) (ms : list (string * option (artifact W)))
    (X_enc : frame W) :
  NoDup (map fst ms) ->
  predict_each W ms X_enc [] = scores_in_order W ms X_enc.
Proof.
  intros H. rewrite predict_each_appends by exact H.
  destruct (scores_in_order W ms X_enc); reflexivity.
Qed.

Lemma predict_each_in_order_witness :
  let W := lab_world (fun _ => Ok (Some 0%nat)) (fun _ => Ok tt)
             (fun m => match m with
                       | Some 1%nat => Ok (PyFloat.nearest_of_Z (-7))
                       | Some 2%nat => Raise (ExternalError "second model")
                       | _ => Raise (ExternalError "other model")
                       end) [] (Raise BadRequest) in
  predict_each W [("a", Some 1%nat); ("b", Some 1%nat)] tt []
  = Ok [("a", NFloat (PyFloat.nearest_of_Z (-7))); ("b", NFloat (PyFloat.nearest_of_Z (-7)))]
  /\ predict_each W [("a", Some 1%nat); ("b", Some 2%nat); ("c", None)] tt []
     = Raise (ExternalError "second model").
Proof.
  split.
  - exact (predict_each_in_order
             (lab_world (fun _ => Ok (Some 0%nat)) (fun _ => Ok tt)
                (fun m => match m with
                          | Some 1%nat => Ok (PyFloat.nearest_of_Z (-7))
                          | Some 2%nat => Raise (ExternalError "second model")
                          | _ => Raise (ExternalError "other model")
                          end) [] (Raise BadRequest))
             [("a", Some 1%nat); ("b", Some 1%nat)] tt
             ltac:(repeat constructor; simpl; intuition discriminate)).
  - exact (predict_each_in_order
             (lab_world (fun _ => Ok (Some 0%nat)) (fun _ => Ok tt)
                (fun m => match m with
                          | Some 1%nat => Ok (PyFloat.nearest_of_Z (-7))
                          | Some 2%nat => Raise (ExternalError "second model")
                          | _ => Raise (ExternalError "other model")
                          end) [] (Raise BadRequest))
             [("a", Some 1%nat); ("b", Some 2%nat); ("c", None)] tt
             ltac:(repeat constructor; simpl; intuition discriminate)).
Defined.

(** ** The loader *)

Section Loaded.
Variable W : World.

Lemma loaded_state :
  all_deserialized W = true ->
  exists p m1 m2 m3,
    joblib_load W PREPROCESSOR_PKL = Ok p
    /\ joblib_load W (dict_get MODEL_FILES "Resale_Value" "") = Ok m1
    /\ joblib_load W (dict_get MODEL_FILES "Recycle_Value" "") = Ok m2
    /\ joblib_load W (dict_get MODEL_FILES "Reuse_Score" "") = Ok m3
    /\ startup W
       = {| preprocessor := p;
            models := [("Resale_Value", m1); ("Recycle_Value", m2); ("Reuse_Score", m3)];
            models_loaded := true |}.
Proof.
  rewrite startup_state.
  unfold startup_expected, all_deserialized, preprocessor_kept.
  cbn [forallb map snd MODEL_FILES models_kept dict_get].
  cbn.
  repeat match goal with
         | |- context [isfile W ?p] => destruct (isfile W p); cbn; [|discriminate]
         | |- context [joblib_load W ?p] => destruct (joblib_load W p); cbn; [|discriminate]
         end.
  intros _. do 4 eexists. repeat split; reflexivity.
Qed.

End Loaded.

(** X7. When the four artifact files are there and unpickle, the load
    attempt keeps all four objects: the preprocessor is the object read from
    [preprocessor.pkl], the mapping holds under each target name the object
    read from the file of that name, in the order of [MODEL_FILES], and the
    flag is on. *)
Theorem full_load_keeps_four (W : World) :
  all_deserialized W = true ->
  exists p m1 m2 m3,
    joblib_load W PREPROCESSOR_PKL = Ok p
    /\ joblib_load W (dict_get MODEL_FILES "Resale_Value" "") = Ok m1
    /\ joblib_load W (dict_get MODEL_FILES "Recycle_Value" "") = Ok m2
    /\ joblib_load W (dict_get MODEL_FILES "Reuse_Score" "") = Ok m3
    /\ startup W
       = {| preprocessor := p;
            models := [("Resale_Value", m1); ("Recycle_Value", m2); ("Reuse_Score", m3)];
            models_loaded := true |}.
Proof.
  intros H. destruct (loaded_state W H) as (p & m1 & m2 & m3 & Hp & H1 & H2 & H3 & E).
  exists p, m1, m2, m3. repeat split; assumption.
Qed.

Lemma full_load_keeps_four_witness :
  let W := lab_world
             (fun p => if String.eqb p PREPROCESSOR_PKL then Ok (Some 7%nat)
                       else Ok (Some (String.length p)))
             (fun _ => Ok tt) (fun _ => Ok PyFloat.pos_zero) [] (Raise BadRequest) in
  exists p m1 m2 m3,
    joblib_load W PREPROCESSOR_PKL = Ok p
    /\ joblib_load W (dict_get MODEL_FILES "Resale_Value" "") = Ok m1
    /\ joblib_load W (dict_get MODEL_FILES "Recycle_Value" "") = Ok m2
    /\ joblib_load W (dict_get MODEL_FILES "Reuse_Score" "") = Ok m3
    /\ startup W
       = {| preprocessor := p;
            models := [("Resale_Value", m1); ("Recycle_Value", m2); ("Reuse_Score", m3)];
            models_loaded := true |}.
Proof.
  exact (full_load_keeps_four
           (lab_world
              (fun p => if String.eqb p PREPROCESSOR_PKL then Ok (Some 7%nat)
                        else Ok (Some (String.length p)))
              (fun _ => Ok tt) (fun _ => Ok PyFloat.pos_zero) [] (Raise BadRequest))
           eq_refl).
Defined.

(** X8. When [preprocessor.pkl] is missing or does not unpickle, the load
    attempt leaves the three globals as they were at import: no
    preprocessor, an empty mapping, the flag off; the model files play no
    part. *)
Theorem preprocessor_failure_keeps_nothing (W : World) :
  isfile W PREPROCESSOR_PKL && is_ok (joblib_load W PREPROCESSOR_PKL) = false ->
  startup W = initial_bundle W.
Proof.
  rewrite startup_state.
  unfold startup_expected, all_deserialized, preprocessor_kept, initial_bundle.
  cbn [forallb]. intros H. rewrite H. cbn [andb].
  destruct (isfile W PREPROCESSOR_PKL); [|reflexivity].
  destruct (joblib_load W PREPROCESSOR_PKL); [discriminate H | reflexivity].
Qed.

Lemma preprocessor_failure_keeps_nothing_witness :
  let W := sample_world (fun p => negb (String.eqb p PREPROCESSOR_PKL))
             (fun _ => Ok (Some tt)) (Raise BadRequest) in
  startup W = initial_bundle W.
Proof.
  exact (preprocessor_failure_keeps_nothing
           (sample_world (fun p => negb (String.eqb p PREPROCESSOR_PKL))
              (fun _ => Ok (Some tt)) (Raise BadRequest))
           eq_refl).
Defined.

(** ** The endpoint in model-backed mode *)

(** X9. In model-backed mode an exception raised by the transform of the
    preprocessor is not caught by the pipeline: the endpoint answers 500
    with the error Prediction failed and the text of that exception. *)
Theorem transform_failure_is_500 (W : World) (g : Bundle W) (request_body : string)
    (payload : value) (df X : DataFrame) (p : artifact W) (e : exn) :
  model_backed W g = true ->
  preprocessor g = Some p ->
  get_json W request_body = Ok payload ->
  build_input_df payload = Ok df ->
  map_condition W df = Ok X ->
  transform W p X = Raise e ->
  predict W g request_body
  = {| status := 500;
       body := Json [ ("error", JStr "Prediction failed"); ("details", JExcText e) ] |}.
Proof.
  intros Hb Hp Hj Hd Hm Ht.
  destruct (model_backed_is_pipeline W g Hb) as (p' & Hp' & Hpipe).
  rewrite Hp in Hp'. injection Hp' as <-.
  unfold predict. rewrite Hj, Hd. cbn [bind].
  rewrite Hpipe. unfold model_pipeline. rewrite Hm. cbn [bind].
  rewrite Ht. reflexivity.
Qed.

Lemma transform_failure_is_500_witness :
  let W := lab_world (fun _ => Ok (Some 0%nat))
             (fun X => match Original_Price X with
                       | VStr _ => Raise (ExternalError "could not convert string to float")
                       | _ => Ok tt
                       end)
             (fun _ => Ok PyFloat.pos_zero) []
             (Ok (VDict [("price", VStr "cheap"); ("condition", VStr "new")])) in
  predict W (startup W) "body"
  = {| status := 500;
       body := Json [ ("error", JStr "Prediction failed");
                      ("details", JExcText (ExternalError "could not convert string to float")) ] |}.
Proof.
  exact (transform_failure_is_500
           (lab_world (fun _ => Ok (Some 0%nat))
              (fun X => match Original_Price X with
                        | VStr _ => Raise (ExternalError "could not convert string to float")
                        | _ => Ok tt
                        end)
              (fun _ => Ok PyFloat.pos_zero) []
              (Ok (VDict [("price", VStr "cheap"); ("condition", VStr "new")])))
           (startup _) "body" _ _ _ 0%nat _
           eq_refl eq_refl eq_refl eq_refl eq_refl eq_refl).
Defined.

(** X10. In a reachable state where the model-backed branch is taken, a
    successful answer carries models_loaded true and, under the three score
    keys, the floats predicted on one and the same encoded frame by the
    models unpickled from the files of Resale_Value, Recycle_Value and
    Reuse_Score, as they are: no rounding, no cut at zero. *)
Theorem model_backed_answer (W : World) (g : Bundle W) (request_body : string)
    (payload : value) (preds : list (string * number)) :
  reachable W g ->
  model_backed W g = true ->
  get_json W request_body = Ok payload ->
  (df <- build_input_df payload ;; predict_all_targets W g df) = Ok preds ->
  exists X_enc m1 m2 m3 y1 y2 y3,
    joblib_load W (dict_get MODEL_FILES "Resale_Value" "") = Ok m1
    /\ joblib_load W (dict_get MODEL_FILES "Recycle_Value" "") = Ok m2
    /\ joblib_load W (dict_get MODEL_FILES "Reuse_Score" "") = Ok m3
    /\ predict_first W m1 X_enc = Ok y1
    /\ predict_first W m2 X_enc = Ok y2
    /\ predict_first W m3 X_enc = Ok y3
    /\ predict W g request_body
       = {| status := 200;
            body := Json [ ("resale_value", JNum (NFloat y1));
                           ("recycle_score", JNum (NFloat y2));
                           ("reuse_score", JNum (NFloat y3));
                           ("models_loaded", JBool true) ] |}.
Proof.
  intros Hg Hb Hj Hp. rewrite (reachable_is_startup W g Hg) in *.
  assert (L : all_deserialized W = true).
  { rewrite <- startup_flag. unfold model_backed in Hb.
    destruct (models_loaded (startup W)); [reflexivity | discriminate Hb]. }
  destruct (loaded_state W L) as (p & m1 & m2 & m3 & _ & H1 & H2 & H3 & E).
  unfold predict. rewrite Hj, Hp.
  destruct (build_input_df payload) as [df|]; cbn [bind] in Hp; [|discriminate Hp].
  destruct (model_backed_is_pipeline W _ Hb) as (p' & _ & Hpipe).
  rewrite Hpipe in Hp. rewrite E in Hp |- *. cbn [models models_loaded] in Hp |- *.
  unfold model_pipeline in Hp.
  destruct (map_condition W df) as [X|]; cbn [bind] in Hp; [|discriminate Hp].
  destruct (transform W p' X) as [t|]; cbn [bind] in Hp; [|discriminate Hp].
  destruct (make_frame W t _) as [X_enc|]; cbn [bind predict_each] in Hp; [|discriminate Hp].
  destruct (predict_first W m1 X_enc) as [y1|] eqn:P1; cbn [bind] in Hp; [|discriminate Hp].
  destruct (predict_first W m2 X_enc) as [y2|] eqn:P2; cbn [bind] in Hp; [|discriminate Hp].
  destruct (predict_first W m3 X_enc) as [y3|] eqn:P3; cbn [bind] in Hp; [|discriminate Hp].
  cbn in Hp. injection Hp as <-.
  exists X_enc, m1, m2, m3, y1, y2, y3. repeat split; assumption || reflexivity.
Qed.

Lemma model_backed_answer_witness :
  let W := lab_world (fun p => Ok (Some (String.length p))) (fun _ => Ok tt)
             (fun m => match m with
                       | Some 46%nat => Ok (PyFloat.nearest_of_Z (-3))
                       | _ => Ok S754_nan
                       end) [] (Ok (VDict [])) in
  exists y2 y3,
    predict W (startup W) "{}"
    = {| status := 200;
         body := Json [ ("resale_value", JNum (NFloat (PyFloat.nearest_of_Z (-3))));
                        ("recycle_score", JNum (NFloat y2));
                        ("reuse_score", JNum (NFloat y3));
                        ("models_loaded", JBool true) ] |}.
Proof.
  pose proof (model_backed_answer
                (lab_world (fun p => Ok (Some (String.length p))) (fun _ => Ok tt)
                   (fun m => match m with
                             | Some 46%nat => Ok (PyFloat.nearest_of_Z (-3))
                             | _ => Ok S754_nan
                             end) [] (Ok (VDict [])))
                (startup _) "{}" _ _ (reach_startup _) eq_refl eq_refl eq_refl)
    as (X_enc & m1 & m2 & m3 & y1 & y2 & y3 & H1 & _ & _ & P1 & _ & _ & H).
  injection H1 as <-. injection P1 as <-.
  exists y2, y3. exact H.
Defined.

(** ** Pages *)

(** ** Suffixes *)

Lemma length_append (a b : string) :
  String.length (a ++ b) = (String.length a + String.length b)%nat.
Proof. induction a as [|c a IH]; cbn [append String.length Nat.add]; congruence. Qed.

Lemma substring_whole s : substring 0 (String.length s) s = s.
Proof. induction s as [|c s IH]; cbn [String.length substring]; congruence. Qed.

Lemma substring_after pre s :
  substring (String.length pre) (String.length s) (pre ++ s) = s.
Proof.
  induction pre as [|c pre IH]; cbn [String.length append substring];
    [apply substring_whole | exact IH].
Qed.

Lemma substring_split s : forall k,
  (k <= String.length s)%nat ->
  s = substring 0 k s ++ substring k (String.length s - k) s.
Proof.
  induction s as [|c s IH]; intros k Hk.
  - destruct k; reflexivity.
  - destruct k as [|k].
    + rewrite Nat.sub_0_r, substring_whole. reflexivity.
    + cbn [String.length] in Hk. cbn [String.length substring append Nat.sub].
      rewrite <- (IH k) by lia. reflexivity.
Qed.

(** [s.endswith(suffix)] holds of the texts written with the suffix last. *)
Lemma endswith_spec s suffix :
  endswith s suffix = true <-> exists stem, s = stem ++ suffix.
Proof.
  unfold endswith. split.
  - intros H. apply andb_prop in H as [Hl He].
    apply Nat.leb_le in Hl. apply String.eqb_eq in He.
    exists (substring 0 (String.length s - String.length suffix) s).
    pose proof (substring_split s (String.length s - String.length suffix)) as E.
    replace (String.length s - (String.length s - String.length suffix))%nat
      with (String.length suffix) in E by lia.
    rewrite He in E. apply E. lia.
  - intros [stem ->]. rewrite length_append.
    replace (String.length stem + String.length suffix - String.length suffix)%nat
      with (String.length stem) by lia.
    rewrite substring_after, String.eqb_refl, andb_true_r.
    apply Nat.leb_le. lia.
Qed.

(** X11. When [index.html] is among the templates, the catch-all never
    answers the Template-not-found page.  It serves the template named by
    the path when that file exists and the path is written with [.html]
    last, and the home page for every other path; the template is rendered,
    or sent as a raw file when rendering raises. *)
Theorem catch_all_serves_existing_template (W : World) (subpath : string) :
  isfile W (os_path_join template_folder "index.html") = true ->
  let named := isfile W (os_path_join template_folder subpath)
               && endswith subpath ".html" in
  let fname := if named then subpath else "index.html" in
  (named = true <-> isfile W (os_path_join template_folder subpath) = true
                    /\ exists stem, subpath = stem ++ ".html")
  /\ isfile W (os_path_join template_folder fname) = true
  /\ catch_all W subpath
     = match render_template W fname with
       | Ok page => Ok {| status := 200; body := Html page |}
       | Raise _ => send_from_directory W template_folder fname
       end.
Proof.
  intros Hi named fname. split.
  { unfold named. rewrite andb_true_iff, endswith_spec. reflexivity. }
  unfold catch_all. fold named. unfold fname.
  destruct named eqn:Hn.
  - apply andb_prop in Hn as [Hs _]. split; [exact Hs|].
    unfold render_or_static. rewrite Hs. reflexivity.
  - split; [exact Hi|]. unfold render_or_static. rewrite Hi. reflexivity.
Qed.

Lemma catch_all_serves_existing_template_witness :
  let W := lab_world (fun _ => Ok None) (fun _ => Ok tt) (fun _ => Ok PyFloat.pos_zero)
             [] (Raise BadRequest) in
  catch_all W "docs/guide.html"
  = Ok {| status := 200; body := RawFile template_folder "docs/guide.html" |}
  /\ catch_all W "docs/guide.htm"
     = Ok {| status := 200; body := RawFile template_folder "index.html" |}.
Proof.
  split.
  - exact (proj2 (proj2 (catch_all_serves_existing_template
             (lab_world (fun _ => Ok None) (fun _ => Ok tt) (fun _ => Ok PyFloat.pos_zero)
                [] (Raise BadRequest))
             "docs/guide.html" eq_refl))).
  - exact (proj2 (proj2 (catch_all_serves_existing_template
             (lab_world (fun _ => Ok None) (fun _ => Ok tt) (fun _ => Ok PyFloat.pos_zero)
                [] (Raise BadRequest))
             "docs/guide.htm" eq_refl))).
Defined.

Lemma append_empty_r s : s ++ "" = s.
Proof. induction s as [|c s IH]; cbn [append]; [reflexivity | rewrite IH; reflexivity]. Qed.

Lemma append_assoc' (a b c : string) : (a ++ b) ++ c = a ++ (b ++ c).
Proof. induction a as [|x a IH]; cbn [append]; [reflexivity | rewrite IH; reflexivity]. Qed.

Lemma join_cons x xs : String.concat "" (x :: xs) = x ++ String.concat "" xs.
Proof.
  destruct xs; cbn [String.concat append]; [rewrite append_empty_r|]; reflexivity.
Qed.

Lemma join_app l1 l2 :
  String.concat "" (l1 ++ l2) = String.concat "" l1 ++ String.concat "" l2.
Proof.
  induction l1 as [|x l1 IH]; [reflexivity|].
  rewrite <- app_comm_cons, !join_cons, IH, append_assoc'. reflexivity.
Qed.

(** X12. The routes page answers 200 and lists every registered rule once,
    in the order of the rule map, each as a list item whose link and text
    are the rule as it is written (nothing is escaped). *)
Theorem routes_lists_every_rule (W : World) (before after : list string) (r : string) :
  url_rules W = (before ++ r :: after)%list ->
  routes W
  = Ok {| status := 200;
          body := Html ("<h3>Registered routes</h3><ul>"
                        ++ String.concat "" (map route_item before)
                        ++ route_item r
                        ++ String.concat "" (map route_item after)
                        ++ "</ul><p>Open / or /ourai.</p>") |}
  /\ route_item r = "<li><a href=" ++ quote ++ r ++ quote ++ ">" ++ r ++ "</a></li>".
Proof.
  intros H. split; [|reflexivity]. unfold routes. rewrite H.
  change (fun r0 : string => "<li><a href=" ++ quote ++ r0 ++ quote ++ ">" ++ r0 ++ "</a></li>")
    with route_item.
  rewrite map_app, join_app. cbn [map]. rewrite join_cons.
  rewrite !append_assoc'. reflexivity.
Qed.

Lemma routes_lists_every_rule_witness :
  let W := lab_world (fun _ => Ok None) (fun _ => Ok tt) (fun _ => Ok PyFloat.pos_zero)
             ["/"; "/<path:subpath>"; "/predict"] (Raise BadRequest) in
  routes W
  = Ok {| status := 200;
          body := Html ("<h3>Registered routes</h3><ul>"
                        ++ route_item "/"
                        ++ route_item "/<path:subpath>"
                        ++ route_item "/predict"
                        ++ "</ul><p>Open / or /ourai.</p>") |}
  /\ route_item "/<path:subpath>"
     = "<li><a href=" ++ quote ++ "/<path:subpath>" ++ quote ++ ">/<path:subpath></a></li>".
Proof.
  exact (routes_lists_every_rule
           (lab_world (fun _ => Ok None) (fun _ => Ok tt) (fun _ => Ok PyFloat.pos_zero)
              ["/"; "/<path:subpath>"; "/predict"] (Raise BadRequest))
           ["/"] ["/predict"] "/<path:subpath>" eq_refl).
Defined.

(** ** The entry point *)

Section Port.
Import PyStr.

Lemma chars_length s : List.length (chars s) = String.length s.
Proof. induction s as [|c s IH]; cbn; [reflexivity | rewrite <- IH; reflexivity]. Qed.

Lemma split_sign_digit c cs :
  isdigit c = true -> split_sign (c :: cs) = (false, c :: cs).
Proof. revert c. apply isdigit_cases; reflexivity. Qed.

(** A non-empty run of digits within the limit is read as its value. *)
Lemma int_of_digits L c cs :
  forallb isdigit (c :: cs) = true ->
  (L = 0 \/ List.length (c :: cs) <= L)%nat ->
  int_of_string L (string_of_list_ascii (c :: cs)) = Some (digits_value (c :: cs)).
Proof.
  intros H HL. unfold int_of_string.
  rewrite (number_text_ascii _ (digits_are_ascii _ H)).
  rewrite (drop_underscores_digits _ _ H), (strip_digits _ H).
  assert (Hc : isdigit c = true) by (simpl in H; apply andb_prop in H; tauto).
  rewrite (split_sign_digit c cs Hc), (span_digits_all _ H).
  replace (negb (L =? 0)%nat && (L <? List.length (c :: cs))%nat) with false;
    [reflexivity|].
  destruct HL as [-> | HL]; [reflexivity|].
  apply Nat.ltb_ge in HL. rewrite HL. symmetry. apply andb_false_r.
Qed.

Lemma blanks_are_ascii cs : forallb isspace_c cs = true -> is_ascii cs = true.
Proof.
  intros H. apply forallb_forall. intros c Hc.
  pose proof (proj1 (forallb_forall _ _) H c Hc) as Hs. revert Hs.
  destruct c as [[|] [|] [|] [|] [|] [|] [|] [|]]; intros Hs;
    try discriminate Hs; reflexivity.
Qed.

Lemma isspace_c_no_underscore c : isspace_c c = true -> Ascii.eqb c "_" = false.
Proof.
  destruct c as [[|] [|] [|] [|] [|] [|] [|] [|]]; intros H;
    try discriminate H; reflexivity.
Qed.

Lemma drop_underscores_blank cs : forall b,
  forallb isspace_c cs = true -> drop_underscores b cs = Some cs.
Proof.
  induction cs as [|c cs IH]; intros b H; [reflexivity|].
  simpl in H. apply andb_prop in H as [Hc Hcs].
  cbn [drop_underscores]. rewrite (isspace_c_no_underscore c Hc), (IH _ Hcs).
  reflexivity.
Qed.

End Port.

(** X13. The port of the entry point: 8080 when PORT is not set, and the
    number [n] when PORT is the decimal numeral of [n] (no longer than the
    digit limit of the interpreter, if it has one). *)
Theorem port_of_numeral (L : nat) (n : N) :
  (L = 0 \/ String.length (decimal n) <= L)%nat ->
  port_of_env L (Some (decimal n)) = Some (Z.of_N n)
  /\ port_of_env L None = Some 8080.
Proof.
  intros HL. split; [|reflexivity].
  cbn [port_of_env]. revert HL. unfold decimal, NilZero.string_of_uint.
  pose proof (numeral_value (N.to_uint n)) as Hv.
  pose proof (numeral_digits (N.to_uint n)) as Hd.
  change (Pos.of_uint (N.to_uint n)) with (N.of_uint (N.to_uint n)) in Hv.
  rewrite DecimalN.Unsigned.of_to in Hv.
  destruct (N.to_uint n) eqn:E.
  { intros _. simpl in Hv. rewrite <- Hv. destruct L as [|[|L]]; reflexivity. }
  all: intros HL; rewrite <- Hv; rewrite <- chars_length in HL; unfold PyStr.chars in *;
    rewrite <- (string_of_list_ascii_of_string (NilEmpty.string_of_uint _)) at 1;
    destruct (list_ascii_of_string (NilEmpty.string_of_uint _)) as [|c cs] eqn:Ec;
    [discriminate Ec | apply int_of_digits; assumption].
Qed.

Lemma port_of_numeral_witness :
  port_of_env 4300 (Some "5000") = Some 5000
  /\ port_of_env 4300 None = Some 8080.
Proof.
  exact (port_of_numeral 4300 5000 (or_intror (proj1 (Nat.leb_le 4 4300) eq_refl))).
Defined.

(** X14. A PORT that is set but empty or blank does not fall back to 8080:
    [int()] raises ValueError and the entry point stops. *)
Theorem blank_port_raises (L : nat) (s : string) :
  forallb PyStr.isspace_c (PyStr.chars s) = true ->
  port_of_env L (Some s) = None.
Proof.
  intros H. cbn [port_of_env]. unfold int_of_string, PyStr.number_text.
  rewrite (blanks_are_ascii _ H), (drop_underscores_blank _ _ H).
  unfold PyStr.strip_with. rewrite (drop_while_all _ _ H). reflexivity.
Qed.

Lemma blank_port_raises_witness :
  port_of_env 4300 (Some "") = None /\ port_of_env 0 (Some "   ") = None.
Proof.
  split.
  - exact (blank_port_raises 4300 "" eq_refl).
  - exact (blank_port_raises 0 "   " eq_refl).
Defined.
